(** * Member card renderer

    A shallow embedding of the two implementations of [initMemberComponent]
    (src/scripts/memberComponent.ts, which toggles the visibility of the card,
    and its sibling implementation, which never touches it) and of the
    bootstrap class of src/scripts/index.ts, followed by the properties the
    specification states about them.

    The browser is the environment.  What the code only reads (the query
    string, the remote API, the clock, the date parser) is a [Host]; what it
    writes (the DOM, the console, the requests it issues, the cancellation
    tokens it creates) is a [World], threaded through a state and exception
    monad [Eff].  An [async] function is its body run to completion: a
    [Returns] outcome is a resolved promise, a [Throws] outcome a rejected
    one, and nothing else touches the page between two [await]s.  The five
    children of the card are distinct elements.  What the style declaration
    stores for a value handed to [setProperty] is the host's business: the
    call is recorded with the value as passed, the variable holds what the
    host makes of it. *)

From Stdlib Require Import String Ascii List ZArith NArith Bool Lia DecimalString.
Import ListNotations.
Local Open Scope string_scope.

(** ** JavaScript values *)

(** A value of type [string | null | undefined] is an [option string]; the
    empty string is the only falsy string. *)
Definition truthy (v : option string) : bool :=
  match v with
  | None => false
  | Some EmptyString => false
  | Some (String _ _) => true
  end.

(** [v ?? fallback] *)
Definition nullish_coalesce (v : option string) (fallback : string) : string :=
  match v with
  | Some s => s
  | None => fallback
  end.

(** [s.startsWith(p)] *)
Definition startsWith (s p : string) : bool := String.prefix p s.

(** A thrown value, as far as the [catch] block inspects it:
    [error instanceof DOMException] and [error.name]. *)
Record Thrown := mkThrown {
  instanceof_DOMException : bool;
  error_name : string;
  error_message : string
}.

Definition TypeError (msg : string) : Thrown := mkThrown false "TypeError" msg.

(** ** The API response *)

(** The fields of the [Member] interface.  The declared types are erased at
    run time and the code guards every access with [?.], [??] or a truthiness
    test, so every field may be missing. *)
Record LatestParty := mkLatestParty {
  name : option string;
  backgroundColour : option string
}.

Record LatestHouseMembership := mkLatestHouseMembership {
  membershipFrom : option string;
  membershipEndDate : option string
}.

Record Member := mkMember {
  nameDisplayAs : option string;
  thumbnailUrl : option string;
  latestParty : option LatestParty;
  latestHouseMembership : option LatestHouseMembership
}.

(** The envelope [{ value: Member }]; [value] is [None] when the key is
    missing from the parsed body or holds [null].  Reading a property of
    either throws a [TypeError]; only the engine's message text tells the
    two apart, and no property below depends on that text. *)
Record ResponseData := mkResponseData {
  value : option Member
}.

(** [response.json()] resolves with the parsed body or rejects; the parsed
    body is [None] when it is the JSON value [null]. *)
Inductive JsonResult :=
| JsonResolves (responseData : option ResponseData)
| JsonRejects (error : Thrown).

Record Response := mkResponse {
  status : N;
  body : JsonResult
}.

(** [response.ok]: the status is in the range 200-299. *)
Definition ok (r : Response) : bool :=
  (200 <=? status r)%N && (status r <=? 299)%N.

(** [fetch(url)] resolves with a response or rejects. *)
Inductive FetchResult :=
| FetchResolves (response : Response)
| FetchRejects (error : Thrown).

(** ** What the code reads *)

(** [URLSearchParams]: the name/value pairs of the query string, in order. *)
Definition URLSearchParams := list (string * string).

(** [params.get(key)]: the first value of that name, [null] if there is none. *)
Fixpoint get (params : URLSearchParams) (key : string) : option string :=
  match params with
  | [] => None
  | (k, v) :: rest => if k =? key then Some v else get rest key
  end.

(** What a style declaration does with a value handed to [setProperty]: it
    stores the value as it parses it (without the white space around it),
    removes the property (an empty value), or ignores a value it cannot
    parse. *)
Inductive Declared :=
| Stored (parsed : string)
| Removed
| Ignored.

Record Host := mkHost {
  (** [new URLSearchParams(window.location.search)] *)
  location_search : URLSearchParams;
  (** what the remote end answers to a GET of a URL *)
  network : string -> FetchResult;
  (** the time value of [new Date()], in milliseconds *)
  now : Z;
  (** the time value of [new Date(s)]; [None] is the invalid date (NaN) *)
  Date_parse : string -> option Z;
  (** what [document.documentElement.style] does with a value for
      [--party-color] *)
  style_setProperty : string -> Declared
}.

(** [a > b] on time values: false as soon as one side is NaN. *)
Definition Date_gt (a b : option Z) : bool :=
  match a, b with
  | Some x, Some y => (y <? x)%Z
  | _, _ => false
  end.

(** ** What the code writes *)

(** An element of the card, with the three properties the code assigns. *)
Record Element := mkElement {
  src : string;
  textContent : string;
  style_display : string
}.

(** Modelled from the spec: the card template of the host page (its markup is
    not part of the sources).  Section 3 of the specification describes it as
    a subtree rooted at the element [mp-card] with five distinct children
    addressed by class selector; each of them may be missing from a page. *)
Record Card := mkCard {
  card_display : string;
  mp_card__image : option Element;
  mp_card__party : option Element;
  mp_card__name : option Element;
  mp_card__constituency : option Element;
  mp_card__status : option Element
}.

Record Document := mkDocument {
  (** [document.getElementById("mp-card")] *)
  mp_card : option Card;
  (** [--party-color] on [document.documentElement.style] *)
  party_color : option string
}.

Inductive LogEntry :=
| Log (msg : string)
| Warn (msg : string)
| Error (msg : string) (args : list Thrown).

(** An [AbortController], reduced to [signal.aborted]. *)
Record AbortController := mkAbortController {
  aborted : bool
}.

Record World := mkWorld {
  document : Document;
  (** console output, oldest first *)
  console : list LogEntry;
  (** URLs requested from the network, oldest first *)
  fetched : list string;
  (** the cancellation tokens created so far; a token is named by its index *)
  controllers : list AbortController;
  (** the values passed to [setProperty("--party-color", _)], oldest first *)
  setProperty_calls : list string
}.

Definition with_document (f : Document -> Document) (w : World) : World :=
  mkWorld (f (document w)) (console w) (fetched w) (controllers w) (setProperty_calls w).

Definition with_console (f : list LogEntry -> list LogEntry) (w : World) : World :=
  mkWorld (document w) (f (console w)) (fetched w) (controllers w) (setProperty_calls w).

Definition with_fetched (f : list string -> list string) (w : World) : World :=
  mkWorld (document w) (console w) (f (fetched w)) (controllers w) (setProperty_calls w).

Definition with_controllers (f : list AbortController -> list AbortController)
    (w : World) : World :=
  mkWorld (document w) (console w) (fetched w) (f (controllers w)) (setProperty_calls w).

Definition with_setProperty_calls (f : list string -> list string) (w : World) : World :=
  mkWorld (document w) (console w) (fetched w) (controllers w) (f (setProperty_calls w)).

Definition with_card (f : Card -> Card) (d : Document) : Document :=
  mkDocument (option_map f (mp_card d)) (party_color d).

(** ** Handles on DOM nodes *)

Inductive CardRef := TheCard.

Inductive ChildRef := ImageRef | PartyRef | NameRef | ConstituencyRef | StatusRef.

Definition child_of_selector (selector : string) : option ChildRef :=
  if selector =? ".mp-card__image" then Some ImageRef
  else if selector =? ".mp-card__party" then Some PartyRef
  else if selector =? ".mp-card__name" then Some NameRef
  else if selector =? ".mp-card__constituency" then Some ConstituencyRef
  else if selector =? ".mp-card__status" then Some StatusRef
  else None.

Definition get_child (r : ChildRef) (c : Card) : option Element :=
  match r with
  | ImageRef => mp_card__image c
  | PartyRef => mp_card__party c
  | NameRef => mp_card__name c
  | ConstituencyRef => mp_card__constituency c
  | StatusRef => mp_card__status c
  end.

Definition update_child (r : ChildRef) (f : Element -> Element) (c : Card) : Card :=
  match r with
  | ImageRef =>
      mkCard (card_display c) (option_map f (mp_card__image c)) (mp_card__party c)
        (mp_card__name c) (mp_card__constituency c) (mp_card__status c)
  | PartyRef =>
      mkCard (card_display c) (mp_card__image c) (option_map f (mp_card__party c))
        (mp_card__name c) (mp_card__constituency c) (mp_card__status c)
  | NameRef =>
      mkCard (card_display c) (mp_card__image c) (mp_card__party c)
        (option_map f (mp_card__name c)) (mp_card__constituency c) (mp_card__status c)
  | ConstituencyRef =>
      mkCard (card_display c) (mp_card__image c) (mp_card__party c)
        (mp_card__name c) (option_map f (mp_card__constituency c)) (mp_card__status c)
  | StatusRef =>
      mkCard (card_display c) (mp_card__image c) (mp_card__party c)
        (mp_card__name c) (mp_card__constituency c) (option_map f (mp_card__status c))
  end.

Definition set_src (v : string) (e : Element) : Element :=
  mkElement v (textContent e) (style_display e).

Definition set_textContent (v : string) (e : Element) : Element :=
  mkElement (src e) v (style_display e).

Definition set_style_display (v : string) (e : Element) : Element :=
  mkElement (src e) (textContent e) v.

Definition set_card_display (v : string) (c : Card) : Card :=
  mkCard v (mp_card__image c) (mp_card__party c) (mp_card__name c)
    (mp_card__constituency c) (mp_card__status c).

(** ** The effect monad: state and exceptions *)

Inductive Outcome (A : Type) :=
| Returns (a : A)
| Throws (error : Thrown).

Arguments Returns {A} a.
Arguments Throws {A} error.

Definition Eff (A : Type) : Type := World -> Outcome A * World.

Definition ret {A} (a : A) : Eff A := fun w => (Returns a, w).

Definition bind {A B} (m : Eff A) (k : A -> Eff B) : Eff B :=
  fun w =>
    match m w with
    | (Returns a, w') => k a w'
    | (Throws e, w') => (Throws e, w')
    end.

Definition throw {A} (e : Thrown) : Eff A := fun w => (Throws e, w).

(** [try { body } catch (error) { handler }] *)
Definition try_catch {A} (body : Eff A) (handler : Thrown -> Eff A) : Eff A :=
  fun w =>
    match body w with
    | (Returns a, w') => (Returns a, w')
    | (Throws e, w') => handler e w'
    end.

Declare Scope eff_scope.
Delimit Scope eff_scope with eff.
Bind Scope eff_scope with Eff.

Notation "x <- m ;; k" := (bind m (fun x => k))
  (at level 61, m at next level, right associativity) : eff_scope.
Notation "m ;; k" := (bind m (fun _ => k))
  (at level 61, right associativity) : eff_scope.

(** [if (x) stmt] for a nullable handle [x] *)
Definition when_present {R} (x : option R) (stmt : R -> Eff unit) : Eff unit :=
  match x with
  | Some r => stmt r
  | None => ret tt
  end.

(** ** The browser API the code calls *)

Definition modify (f : World -> World) : Eff unit := fun w => (Returns tt, f w).

Definition console_log (msg : string) : Eff unit :=
  modify (with_console (fun out => (out ++ [Log msg])%list)).

Definition console_warn (msg : string) : Eff unit :=
  modify (with_console (fun out => (out ++ [Warn msg])%list)).

Definition console_error (msg : string) (args : list Thrown) : Eff unit :=
  modify (with_console (fun out => (out ++ [Error msg args])%list)).

Definition getElementById (id : string) : Eff (option CardRef) :=
  fun w =>
    (Returns (if id =? "mp-card"
              then match mp_card (document w) with
                   | Some _ => Some TheCard
                   | None => None
                   end
              else None), w).

Definition querySelector (_ : CardRef) (selector : string) : Eff (option ChildRef) :=
  fun w =>
    (Returns match child_of_selector selector, mp_card (document w) with
             | Some r, Some c =>
                 match get_child r c with
                 | Some _ => Some r
                 | None => None
                 end
             | _, _ => None
             end, w).

(** [card.style.display = v] *)
Definition assign_card_display (_ : CardRef) (v : string) : Eff unit :=
  modify (with_document (with_card (set_card_display v))).

(** [el.src = v], [el.textContent = v], [el.style.display = v] *)
Definition assign_src (r : ChildRef) (v : string) : Eff unit :=
  modify (with_document (with_card (update_child r (set_src v)))).

Definition assign_textContent (r : ChildRef) (v : string) : Eff unit :=
  modify (with_document (with_card (update_child r (set_textContent v)))).

Definition assign_style_display (r : ChildRef) (v : string) : Eff unit :=
  modify (with_document (with_card (update_child r (set_style_display v)))).

(** The value of [--party-color] once [v] has been handed to [setProperty],
    [old] being its value before. *)
Definition declare (h : Host) (v : string) (old : option string) : option string :=
  match style_setProperty h v with
  | Stored parsed => Some parsed
  | Removed => None
  | Ignored => old
  end.

(** [document.documentElement.style.setProperty("--party-color", v)]: the
    call is recorded with the value as passed, and the variable becomes what
    the style declaration makes of it. *)
Definition setProperty_party_color (h : Host) (v : string) : Eff unit :=
  modify (fun w =>
    with_setProperty_calls (fun calls => (calls ++ [v])%list)
      (with_document
         (fun d => mkDocument (mp_card d) (declare h v (party_color d))) w)).

(** [new AbortController()]: a fresh token, not aborted; the handle is its
    index in the world. *)
Definition new_AbortController : Eff nat :=
  fun w =>
    (Returns (length (controllers w)),
     with_controllers (fun cs => (cs ++ [mkAbortController false])%list) w).

(** [controller.abort()] *)
Definition abort (controller : nat) : Eff unit :=
  modify (with_controllers (fun cs =>
    (firstn controller cs
       ++ match nth_error cs controller with
          | Some _ => [mkAbortController true]
          | None => []
          end
       ++ skipn (S controller) cs)%list)).

(** [controller.signal.aborted] *)
Definition signal_aborted (controller : nat) (w : World) : bool :=
  match nth_error (controllers w) controller with
  | Some c => aborted c
  | None => false
  end.

Definition AbortError : Thrown :=
  mkThrown true "AbortError" "The operation was aborted.".

(** [await fetch(url, { signal })]: a request whose signal is already aborted
    is rejected with an [AbortError] without reaching the network; any other
    request is sent and answered by the host. *)
Definition fetch (h : Host) (url : string) (controller : nat) : Eff Response :=
  fun w =>
    if signal_aborted controller w then (Throws AbortError, w)
    else
      let w' := with_fetched (fun urls => (urls ++ [url])%list) w in
      match network h url with
      | FetchResolves r => (Returns r, w')
      | FetchRejects e => (Throws e, w')
      end.

(** [await response.json()] *)
Definition json (r : Response) : Eff (option ResponseData) :=
  match body r with
  | JsonResolves d => ret d
  | JsonRejects e => throw e
  end.

(** A property access [x.property] on a nullable [x]: a [TypeError] when [x]
    is [nothing], that is [null] or [undefined]. *)
Definition deref {A} (x : option A) (nothing property : string) : Eff A :=
  match x with
  | Some a => ret a
  | None =>
      throw (TypeError
               ("Cannot read properties of " ++ nothing ++ " (reading '" ++ property ++ "')"))
  end.

(** [x?.field], for a string field *)
Definition opt_chain {A} (x : option A) (field : A -> option string) : option string :=
  match x with
  | Some a => field a
  | None => None
  end.

(** [${v}] inside a template literal *)
Definition template (v : option string) : string :=
  match v with
  | Some s => s
  | None => "null"
  end.

(** [!x] for a nullable handle *)
Definition is_null {R} (x : option R) : bool :=
  match x with
  | Some _ => false
  | None => true
  end.

(** [if (v) stmt] for a [string | undefined] *)
Definition when_truthy (v : option string) (stmt : string -> Eff unit) : Eff unit :=
  match v with
  | Some s => if truthy (Some s) then stmt s else ret tt
  | None => ret tt
  end.

(** Calling an [async] function without awaiting it: the caller gets a
    promise, never an exception; the promise settles with the outcome of the
    body. *)
Definition call_async {A} (f : Eff A) : Eff (Outcome A) :=
  fun w => let (o, w') := f w in (Returns o, w').

(** The decimal rendering of a status code inside a template literal. *)
Definition Number_toString (n : N) : string := NilZero.string_of_uint (N.to_uint n).

(** [partyColor.startsWith("#") ? partyColor : `#${partyColor}`] *)
Definition formattedColor (partyColor : string) : string :=
  if startsWith partyColor "#" then partyColor else "#" ++ partyColor.

(** [membershipEnd ? new Date(membershipEnd) > new Date() : true] *)
Definition isMembershipActive (h : Host) (membershipEnd : option string) : bool :=
  match membershipEnd with
  | Some s =>
      if truthy (Some s) then Date_gt (Date_parse h s) (Some (now h)) else true
  | None => true
  end.

(** [`https://members-api.parliament.uk/api/members/${memberId}`] *)
Definition apiUrl (memberId : option string) : string :=
  "https://members-api.parliament.uk/api/members/" ++ template memberId.

(** [error instanceof DOMException && error.name === "AbortError"] *)
Definition is_abort_error (error : Thrown) : bool :=
  instanceof_DOMException error && (error_name error =? "AbortError").

(** ** src/scripts/memberComponent.ts: the card-visibility variant

    The element handle the source calls [name] is bound as [nameEl] where the
    field [name] of the party is still to be read. *)

Module MemberComponent.

Definition initMemberComponent (h : Host) : Eff unit :=
  (card <- getElementById "mp-card" ;;
   let params := location_search h in
   let memberId := get params "id" in
   if negb (truthy memberId) || is_null card then
     when_present card (fun card => assign_card_display card "none") ;;
     console_warn "No member ID provided or card element not found"
   else
     let apiUrl := apiUrl memberId in
     controller <- new_AbortController ;;
     try_catch
       (response <- fetch h apiUrl controller ;;
        if negb (ok response) then
          console_error ("Fetch failed with status: " ++ Number_toString (status response)) [] ;;
          card <- deref card "null" "style" ;;
          assign_card_display card "none"
        else
          responseData <- json response ;;
          responseData <- deref responseData "null" "value" ;;
          let member := value responseData in
          card <- deref card "null" "querySelector" ;;
          img <- querySelector card ".mp-card__image" ;;
          party <- querySelector card ".mp-card__party" ;;
          nameEl <- querySelector card ".mp-card__name" ;;
          constituency <- querySelector card ".mp-card__constituency" ;;
          status <- querySelector card ".mp-card__status" ;;
          member <- deref member "undefined" "latestParty" ;;
          let partyColor := opt_chain (latestParty member) backgroundColour in
          when_truthy partyColor (fun partyColor =>
            setProperty_party_color h (formattedColor partyColor)) ;;
          when_present img (fun img =>
            assign_src img (nullish_coalesce (thumbnailUrl member) "")) ;;
          when_present party (fun party =>
            assign_textContent party
              (nullish_coalesce (opt_chain (latestParty member) name) "N/A")) ;;
          when_present nameEl (fun name =>
            assign_textContent name (nullish_coalesce (nameDisplayAs member) "N/A")) ;;
          when_present constituency (fun constituency =>
            assign_textContent constituency
              (nullish_coalesce (opt_chain (latestHouseMembership member) membershipFrom) "N/A")) ;;
          let membershipEnd := opt_chain (latestHouseMembership member) membershipEndDate in
          let isMembershipActive := isMembershipActive h membershipEnd in
          when_present status (fun status =>
            assign_style_display status (if isMembershipActive then "none" else "block") ;;
            assign_textContent status (if isMembershipActive then "" else "No longer serving")) ;;
          assign_card_display card "block")
       (fun error =>
          when_present card (fun card => assign_card_display card "none") ;;
          if is_abort_error error then console_warn "Fetch request was aborted"
          else console_error ("Error fetching data for member ID " ++ template memberId ++ ":") [error])
  )%eff.

End MemberComponent.

(** ** The sibling implementation: the card's visibility is never touched *)

Module Sibling.

Definition initMemberComponent (h : Host) : Eff unit :=
  (let params := location_search h in
   let memberId := get params "id" in
   if negb (truthy memberId) then
     console_warn "No member ID provided in the query parameters"
   else
     let apiUrl := apiUrl memberId in
     controller <- new_AbortController ;;
     try_catch
       (response <- fetch h apiUrl controller ;;
        if negb (ok response) then
          console_error ("Fetch failed with status: " ++ Number_toString (status response)) []
        else
          responseData <- json response ;;
          responseData <- deref responseData "null" "value" ;;
          let member := value responseData in
          card <- getElementById "mp-card" ;;
          if is_null card then
            console_warn "Member card element not found"
          else
            member <- deref member "undefined" "latestParty" ;;
            let partyColor := opt_chain (latestParty member) backgroundColour in
            when_truthy partyColor (fun partyColor =>
              setProperty_party_color h (formattedColor partyColor)) ;;
            card <- deref card "null" "querySelector" ;;
            img <- querySelector card ".mp-card__image" ;;
            party <- querySelector card ".mp-card__party" ;;
            nameEl <- querySelector card ".mp-card__name" ;;
            constituency <- querySelector card ".mp-card__constituency" ;;
            status <- querySelector card ".mp-card__status" ;;
            when_present img (fun img =>
              assign_src img (nullish_coalesce (thumbnailUrl member) "")) ;;
            when_present party (fun party =>
              assign_textContent party
                (nullish_coalesce (opt_chain (latestParty member) name) "N/A")) ;;
            when_present nameEl (fun name =>
              assign_textContent name (nullish_coalesce (nameDisplayAs member) "N/A")) ;;
            when_present constituency (fun constituency =>
              assign_textContent constituency
                (nullish_coalesce (opt_chain (latestHouseMembership member) membershipFrom) "N/A")) ;;
            let membershipEnd := opt_chain (latestHouseMembership member) membershipEndDate in
            let isMembershipActive := isMembershipActive h membershipEnd in
            when_present status (fun status =>
              assign_style_display status (if isMembershipActive then "none" else "block") ;;
              assign_textContent status (if isMembershipActive then "" else "No longer serving")))
       (fun error =>
          if is_abort_error error then console_warn "Fetch request was aborted"
          else console_error ("Error fetching data for member ID " ++ template memberId ++ ":") [error])
  )%eff.

End Sibling.

(** ** src/scripts/index.ts *)

Definition verificationLog : string := "Hello world!".

(** [new Main()]: the constructor logs and starts the component without
    awaiting it. *)
Definition Main (h : Host) : Eff (Outcome unit) :=
  (console_log verificationLog ;;
   call_async (MemberComponent.initMemberComponent h))%eff.

(** * Properties *)

(** ** Vocabulary *)

(** [params.get("id")] on the page's query string *)
Definition memberId (h : Host) : option string := get (location_search h) "id".

(** The member record a page load obtains: the identifier is present, the
    request is answered with a success status, and the body parses to an
    envelope that holds a record. *)
Definition parsed_member (h : Host) : option Member :=
  if truthy (memberId h) then
    match network h (apiUrl (memberId h)) with
    | FetchResolves r =>
        if ok r then
          match body r with
          | JsonResolves (Some d) => value d
          | JsonResolves None => None
          | JsonRejects _ => None
          end
        else None
    | FetchRejects _ => None
    end
  else None.

(** The host itself raises an abort error, from the request or while the body
    is read. *)
Definition host_raises_abort (h : Host) : Prop :=
  exists e, is_abort_error e = true /\
    (network h (apiUrl (memberId h)) = FetchRejects e \/
     exists r, network h (apiUrl (memberId h)) = FetchResolves r /\ body r = JsonRejects e).

(** A child of the card, when the card and the child exist. *)
Definition child (r : ChildRef) (w : World) : option Element :=
  match mp_card (document w) with
  | Some c => get_child r c
  | None => None
  end.

(** The document with the card hidden and nothing else changed. *)
Definition hidden (d : Document) : Document := with_card (set_card_display "none") d.

(** The world once the token is created and the request sent. *)
Definition requested (h : Host) (w : World) : World :=
  with_fetched (fun urls => (urls ++ [apiUrl (memberId h)])%list)
    (with_controllers (fun cs => (cs ++ [mkAbortController false])%list) w).

Definition logged (entry : LogEntry) (w : World) : World :=
  with_console (fun out => (out ++ [entry])%list) w.

(** What the [catch] block prints for a thrown value. *)
Definition catch_entry (h : Host) (error : Thrown) : LogEntry :=
  if is_abort_error error then Warn "Fetch request was aborted"
  else Error ("Error fetching data for member ID " ++ template (memberId h) ++ ":") [error].

(** The errors thrown for a body that is [null] and for an envelope without
    a record. *)
Definition null_body : Thrown :=
  TypeError "Cannot read properties of null (reading 'value')".

Definition undefined_member : Thrown :=
  TypeError "Cannot read properties of undefined (reading 'latestParty')".

Definition status_failure (r : Response) : LogEntry :=
  Error ("Fetch failed with status: " ++ Number_toString (status r)) [].

(** The card after the rendering step for member [m]. *)
Definition populated (h : Host) (m : Member) (c : Card) : Card :=
  let active :=
    isMembershipActive h (opt_chain (latestHouseMembership m) membershipEndDate) in
  mkCard (card_display c)
    (option_map (set_src (nullish_coalesce (thumbnailUrl m) "")) (mp_card__image c))
    (option_map
       (set_textContent (nullish_coalesce (opt_chain (latestParty m) name) "N/A"))
       (mp_card__party c))
    (option_map (set_textContent (nullish_coalesce (nameDisplayAs m) "N/A"))
       (mp_card__name c))
    (option_map
       (set_textContent
          (nullish_coalesce (opt_chain (latestHouseMembership m) membershipFrom) "N/A"))
       (mp_card__constituency c))
    (option_map
       (fun e => set_textContent (if active then "" else "No longer serving")
                   (set_style_display (if active then "none" else "block") e))
       (mp_card__status c)).

(** The world after the party colour of member [m] is applied. *)
Definition coloured (h : Host) (m : Member) (w : World) : World :=
  match opt_chain (latestParty m) backgroundColour with
  | Some (String a s) =>
      with_setProperty_calls
        (fun calls => (calls ++ [formattedColor (String a s)])%list)
        (with_document
           (fun d =>
              mkDocument (mp_card d)
                (declare h (formattedColor (String a s)) (party_color d))) w)
  | _ => w
  end.

(** [member.latestHouseMembership?.membershipEndDate] *)
Definition membershipEnd (m : Member) : option string :=
  opt_chain (latestHouseMembership m) membershipEndDate.

(** [member.latestParty?.backgroundColour] *)
Definition partyColor (m : Member) : option string :=
  opt_chain (latestParty m) backgroundColour.

(** The specification's condition for an active membership: the end date is
    absent, or it parses to an instant strictly later than the current one. *)
Definition absent_or_later (h : Host) (e : option string) : Prop :=
  e = None \/
  exists s t, e = Some s /\ Date_parse h s = Some t /\ (now h < t)%Z.

(** The status label of a member that is still serving, and of one that is
    not. *)
Definition status_hidden (el : Element) : Element := mkElement (src el) "" "none".

Definition status_shown (el : Element) : Element :=
  mkElement (src el) "No longer serving" "block".

(** A console entry that reports a problem. *)
Definition diagnostic (entry : LogEntry) : Prop :=
  match entry with
  | Log _ => False
  | Warn _ | Error _ _ => True
  end.

(** What one page load adds to the console, the request log and the tokens. *)
Record Footprint (h : Host) (w : World) (run : Outcome unit * World) : Prop := {
  resolves : fst run = Returns tt;
  one_request :
    (fetched (snd run) = fetched w /\ controllers (snd run) = controllers w) \/
    (fetched (snd run) = (fetched w ++ [apiUrl (memberId h)])%list /\
     controllers (snd run) = (controllers w ++ [mkAbortController false])%list);
  one_entry :
    (console (snd run) = console w /\ parsed_member h <> None) \/
    (exists entry,
       console (snd run) = (console w ++ [entry])%list /\
       diagnostic entry /\
       (entry = Warn "Fetch request was aborted" -> host_raises_abort h))
}.

(** The paths a page load can take, by what the host provides. *)
Inductive Path (h : Host) : Prop :=
| NoIdentifier :
    truthy (memberId h) = false -> Path h
| RequestRejected (e : Thrown) :
    truthy (memberId h) = true ->
    network h (apiUrl (memberId h)) = FetchRejects e -> Path h
| FailureStatus (r : Response) :
    truthy (memberId h) = true ->
    network h (apiUrl (memberId h)) = FetchResolves r ->
    ok r = false -> Path h
| BodyRejected (r : Response) (e : Thrown) :
    truthy (memberId h) = true ->
    network h (apiUrl (memberId h)) = FetchResolves r ->
    ok r = true ->
    body r = JsonRejects e -> Path h
| NullBody (r : Response) :
    truthy (memberId h) = true ->
    network h (apiUrl (memberId h)) = FetchResolves r ->
    ok r = true ->
    body r = JsonResolves None -> Path h
| NoRecord (r : Response) (d : ResponseData) :
    truthy (memberId h) = true ->
    network h (apiUrl (memberId h)) = FetchResolves r ->
    ok r = true ->
    body r = JsonResolves (Some d) ->
    value d = None -> Path h
| Parsed (r : Response) (d : ResponseData) (m : Member) :
    truthy (memberId h) = true ->
    network h (apiUrl (memberId h)) = FetchResolves r ->
    ok r = true ->
    body r = JsonResolves (Some d) ->
    value d = Some m -> Path h.

(** ** Sample pages and hosts *)

Definition blank : Element := mkElement "" "" "".

Definition template_card : Card :=
  mkCard "" (Some blank) (Some blank) (Some blank) (Some blank) (Some blank).

Definition page : World := mkWorld (mkDocument (Some template_card) None) [] [] [] [].

Definition page_without_card : World := mkWorld (mkDocument None None) [] [] [] [].

(** A date parser that knows two instants (6 November 2019 and 1 January
    2999, in milliseconds since the epoch) and rejects every other string. *)
Definition sample_Date_parse (s : string) : option Z :=
  if s =? "2019-11-06T00:00:00Z" then Some 1572998400000%Z
  else if s =? "2999-01-01T00:00:00Z" then Some 32472144000000%Z
  else None.

(** A style declaration that stores a value without the white space around
    it and removes the property when nothing is left. *)
Definition is_white_space (a : ascii) : bool :=
  match nat_of_ascii a with
  | 9 | 10 | 12 | 13 | 32 => true
  | _ => false
  end.

Fixpoint trim_start (s : string) : string :=
  match s with
  | EmptyString => EmptyString
  | String a rest => if is_white_space a then trim_start rest else s
  end.

Fixpoint trim_end (s : string) : string :=
  match s with
  | EmptyString => EmptyString
  | String a rest =>
      match trim_end rest with
      | EmptyString => if is_white_space a then EmptyString else String a EmptyString
      | kept => String a kept
      end
  end.

Definition sample_style (v : string) : Declared :=
  match trim_end (trim_start v) with
  | EmptyString => Removed
  | parsed => Stored parsed
  end.

Definition network_error : Thrown := TypeError "Failed to fetch".

(** A host on 2 November 2026 whose API answers [result] for the member of
    the query string and is unreachable for any other URL. *)
Definition host_of (query : URLSearchParams) (result : FetchResult) : Host :=
  mkHost query
    (fun url => if url =? apiUrl (get query "id") then result
                else FetchRejects network_error)
    1793577600000%Z sample_Date_parse sample_style.

Definition answering (m : Member) : Host :=
  host_of [("id", "172")]
    (FetchResolves (mkResponse 200 (JsonResolves (Some (mkResponseData (Some m)))))).

Definition jane : Member :=
  mkMember (Some "Jane Doe") (Some "http://x/y.jpg")
    (Some (mkLatestParty (Some "Independent") (Some "abcdef")))
    (Some (mkLatestHouseMembership (Some "Testshire") None)).

Definition with_party (p : option LatestParty) (m : Member) : Member :=
  mkMember (nameDisplayAs m) (thumbnailUrl m) p (latestHouseMembership m).

Definition with_end_date (e : option string) (m : Member) : Member :=
  mkMember (nameDisplayAs m) (thumbnailUrl m) (latestParty m)
    (Some (mkLatestHouseMembership (Some "Testshire") e)).

(** A member whose end date is the empty string, one who left on 6 November
    2019, one whose end date is not a date, and one without a party. *)
Definition undated : Member := with_end_date (Some "") jane.

Definition former : Member := with_end_date (Some "2019-11-06T00:00:00Z") jane.

Definition misdated : Member := with_end_date (Some "last autumn") jane.

Definition partyless : Member := with_party None jane.

(** A member whose party colour is the empty string, and one whose colour has
    no leading [#]. *)
Definition colourless : Member :=
  with_party (Some (mkLatestParty (Some "Independent") (Some ""))) jane.

Definition red : Member :=
  with_party (Some (mkLatestParty (Some "Independent") (Some "ff0000"))) jane.

(** A member whose colour is followed by a space. *)
Definition red_spaced : Member :=
  with_party (Some (mkLatestParty (Some "Independent") (Some "ff0000 "))) jane.

(** Hosts whose API is down, answers 404, or is cut off by an abort error. *)
Definition unreachable : Host := host_of [("id", "172")] (FetchRejects network_error).

Definition not_found : Response := mkResponse 404 (JsonRejects network_error).

Definition answering_404 : Host := host_of [("id", "172")] (FetchResolves not_found).

Definition cut_off : Host := host_of [("id", "172")] (FetchRejects AbortError).

Definition without_identifier : Host := host_of [("id", "")] (FetchRejects network_error).

(** ** The two implementations side by side

    [Load h w s c]: on host [h] and from world [w], the sibling
    implementation ends in world [s] and the card-visibility implementation
    in world [c]. *)
Inductive Load (h : Host) (w : World) : World -> World -> Prop :=
| load_no_identifier :
    truthy (memberId h) = false ->
    parsed_member h = None ->
    Load h w
      (logged (Warn "No member ID provided in the query parameters") w)
      (logged (Warn "No member ID provided or card element not found")
         (with_document hidden w))
| load_no_card (entry : LogEntry) :
    truthy (memberId h) = true ->
    mp_card (document w) = None ->
    diagnostic entry ->
    Load h w
      (logged entry (requested h w))
      (logged (Warn "No member ID provided or card element not found")
         (with_document hidden w))
| load_failed (c : Card) (entry : LogEntry) :
    truthy (memberId h) = true ->
    mp_card (document w) = Some c ->
    parsed_member h = None ->
    diagnostic entry ->
    Load h w
      (logged entry (requested h w))
      (logged entry (with_document hidden (requested h w)))
| load_rendered (c : Card) (m : Member) :
    truthy (memberId h) = true ->
    mp_card (document w) = Some c ->
    parsed_member h = Some m ->
    Load h w
      (with_document (with_card (populated h m)) (coloured h m (requested h w)))
      (with_document (with_card (fun c => set_card_display "block" (populated h m c)))
         (coloured h m (requested h w))).

(** The same host at another time. *)
Definition at_time (t : Z) (h : Host) : Host :=
  mkHost (location_search h) (network h) t (Date_parse h) (style_setProperty h).

(** The display of the card, when the card exists. *)
Definition card_visibility (w : World) : option string :=
  option_map card_display (mp_card (document w)).

(** A host whose API sends a record in which every field is missing. *)
Definition bare : Member := mkMember None None None None.

(** ** The token created for a request is fresh *)

Lemma fresh_signal d out urls cs calls :
  signal_aborted (length cs)
    (mkWorld d out urls (cs ++ [mkAbortController false]) calls) = false.
Proof.
  unfold signal_aborted; simpl.
  rewrite nth_error_app2 by lia.
  now rewrite Nat.sub_diag.
Qed.

Lemma truthy_cases (v : option string) :
  truthy v = false -> v = None \/ v = Some "".
Proof. destruct v as [[|a s]|]; simpl; auto; discriminate. Qed.

Lemma truthy_nonempty (v : option string) :
  truthy v = true -> exists a s, v = Some (String a s).
Proof. destruct v as [[|a s]|]; simpl; try discriminate; eauto. Qed.

Lemma ok_range (r : Response) :
  ok r = true <-> (200 <= status r <= 299)%N.
Proof.
  unfold ok. rewrite andb_true_iff, !N.leb_le. tauto.
Qed.

Arguments signal_aborted : simpl never.
Arguments apiUrl : simpl never.
Arguments Number_toString : simpl never.
Arguments formattedColor : simpl never.
Arguments isMembershipActive : simpl never.

(** ** Run equations

    One equation per path through each implementation: the outcome and the
    final world, in terms of the initial world. *)

Ltac open_world w :=
  let card := fresh "card" in
  destruct w as [[card ?colour] ?out ?urls ?cs ?calls];
  unfold requested, logged, hidden, coloured, with_document, with_console, with_fetched,
    with_controllers, with_setProperty_calls, with_card in *;
  cbn [document console fetched controllers setProperty_calls mp_card party_color] in *.

Ltac run :=
  unfold bind, try_catch, ret, throw, modify, new_AbortController, fetch, json,
    getElementById, console_warn, console_error, when_present, assign_card_display,
    with_document, with_console, with_fetched, with_controllers, with_card, deref;
  change ("mp-card" =? "mp-card") with true;
  cbn [document console fetched controllers setProperty_calls mp_card party_color negb orb
       is_null option_map];
  rewrite ?fresh_signal.

Ltac enter f h Hid :=
  unfold f; fold (memberId h); rewrite ?Hid.

Section Sibling_runs.

Variables (h : Host) (w : World).

Lemma sibling_no_id :
  truthy (memberId h) = false ->
  Sibling.initMemberComponent h w =
    (Returns tt, logged (Warn "No member ID provided in the query parameters") w).
Proof.
  intros Hid. enter Sibling.initMemberComponent h Hid. reflexivity.
Qed.

Section Requested.

Hypothesis Hid : truthy (memberId h) = true.

Lemma sibling_fetch_rejects e :
  network h (apiUrl (memberId h)) = FetchRejects e ->
  Sibling.initMemberComponent h w = (Returns tt, logged (catch_entry h e) (requested h w)).
Proof.
  intros Hnet. enter Sibling.initMemberComponent h Hid.
  open_world w. run. rewrite Hnet. unfold catch_entry.
  destruct (is_abort_error e); reflexivity.
Qed.

Lemma sibling_not_ok r :
  network h (apiUrl (memberId h)) = FetchResolves r ->
  ok r = false ->
  Sibling.initMemberComponent h w = (Returns tt, logged (status_failure r) (requested h w)).
Proof.
  intros Hnet Hok. enter Sibling.initMemberComponent h Hid.
  open_world w. run. rewrite Hnet, Hok. reflexivity.
Qed.

Lemma sibling_json_rejects r e :
  network h (apiUrl (memberId h)) = FetchResolves r ->
  ok r = true ->
  body r = JsonRejects e ->
  Sibling.initMemberComponent h w = (Returns tt, logged (catch_entry h e) (requested h w)).
Proof.
  intros Hnet Hok Hbody. enter Sibling.initMemberComponent h Hid.
  open_world w. run. rewrite Hnet, Hok. run. rewrite Hbody. unfold catch_entry.
  destruct (is_abort_error e); reflexivity.
Qed.

Lemma sibling_null_body r :
  network h (apiUrl (memberId h)) = FetchResolves r ->
  ok r = true ->
  body r = JsonResolves None ->
  Sibling.initMemberComponent h w
    = (Returns tt, logged (catch_entry h null_body) (requested h w)).
Proof.
  intros Hnet Hok Hbody. enter Sibling.initMemberComponent h Hid.
  open_world w. run. rewrite Hnet, Hok. run. rewrite Hbody. reflexivity.
Qed.

Lemma sibling_no_card r d :
  network h (apiUrl (memberId h)) = FetchResolves r ->
  ok r = true ->
  body r = JsonResolves (Some d) ->
  mp_card (document w) = None ->
  Sibling.initMemberComponent h w =
    (Returns tt, logged (Warn "Member card element not found") (requested h w)).
Proof.
  intros Hnet Hok Hbody Hcard. enter Sibling.initMemberComponent h Hid.
  open_world w. subst. run. rewrite Hnet, Hok. run. rewrite Hbody. reflexivity.
Qed.

Lemma sibling_no_value r d c :
  network h (apiUrl (memberId h)) = FetchResolves r ->
  ok r = true ->
  body r = JsonResolves (Some d) ->
  value d = None ->
  mp_card (document w) = Some c ->
  Sibling.initMemberComponent h w =
    (Returns tt, logged (catch_entry h undefined_member) (requested h w)).
Proof.
  intros Hnet Hok Hbody Hval Hcard. enter Sibling.initMemberComponent h Hid.
  open_world w. subst. run. rewrite Hnet, Hok. run. rewrite Hbody. run. rewrite Hval.
  reflexivity.
Qed.

Lemma sibling_renders r d m c :
  network h (apiUrl (memberId h)) = FetchResolves r ->
  ok r = true ->
  body r = JsonResolves (Some d) ->
  value d = Some m ->
  mp_card (document w) = Some c ->
  Sibling.initMemberComponent h w =
    (Returns tt, with_document (with_card (populated h m)) (coloured h m (requested h w))).
Proof.
  intros Hnet Hok Hbody Hval Hcard. enter Sibling.initMemberComponent h Hid.
  open_world w. subst. run. rewrite Hnet, Hok. run. rewrite Hbody. run. rewrite Hval.
  unfold populated.
  destruct c as [disp [i|] [p|] [n|] [co|] [st|]];
    destruct (opt_chain (latestParty m) backgroundColour) as [[|a s]|];
    reflexivity.
Qed.

End Requested.

End Sibling_runs.

Section Component_runs.

Variables (h : Host) (w : World).

Lemma component_no_id_or_card :
  truthy (memberId h) = false \/ mp_card (document w) = None ->
  MemberComponent.initMemberComponent h w =
    (Returns tt,
     logged (Warn "No member ID provided or card element not found")
       (with_document hidden w)).
Proof.
  intros Hguard. unfold MemberComponent.initMemberComponent. fold (memberId h).
  open_world w. run.
  destruct Hguard as [Hid | Hcard].
  - rewrite Hid. destruct card; reflexivity.
  - subst. rewrite orb_true_r. reflexivity.
Qed.

Section Requested.

Variable c : Card.
Hypothesis Hid : truthy (memberId h) = true.
Hypothesis Hcard : mp_card (document w) = Some c.

Lemma component_fetch_rejects e :
  network h (apiUrl (memberId h)) = FetchRejects e ->
  MemberComponent.initMemberComponent h w =
    (Returns tt, logged (catch_entry h e) (with_document hidden (requested h w))).
Proof.
  intros Hnet. enter MemberComponent.initMemberComponent h Hid.
  open_world w. subst. run. rewrite Hnet. unfold catch_entry.
  destruct (is_abort_error e); reflexivity.
Qed.

Lemma component_not_ok r :
  network h (apiUrl (memberId h)) = FetchResolves r ->
  ok r = false ->
  MemberComponent.initMemberComponent h w =
    (Returns tt, with_document hidden (logged (status_failure r) (requested h w))).
Proof.
  intros Hnet Hok. enter MemberComponent.initMemberComponent h Hid.
  open_world w. subst. run. rewrite Hnet, Hok. reflexivity.
Qed.

Lemma component_json_rejects r e :
  network h (apiUrl (memberId h)) = FetchResolves r ->
  ok r = true ->
  body r = JsonRejects e ->
  MemberComponent.initMemberComponent h w =
    (Returns tt, logged (catch_entry h e) (with_document hidden (requested h w))).
Proof.
  intros Hnet Hok Hbody. enter MemberComponent.initMemberComponent h Hid.
  open_world w. subst. run. rewrite Hnet, Hok. run. rewrite Hbody. unfold catch_entry.
  destruct (is_abort_error e); reflexivity.
Qed.

Lemma component_null_body r :
  network h (apiUrl (memberId h)) = FetchResolves r ->
  ok r = true ->
  body r = JsonResolves None ->
  MemberComponent.initMemberComponent h w =
    (Returns tt, logged (catch_entry h null_body) (with_document hidden (requested h w))).
Proof.
  intros Hnet Hok Hbody. enter MemberComponent.initMemberComponent h Hid.
  open_world w. subst. run. rewrite Hnet, Hok. run. rewrite Hbody. reflexivity.
Qed.

Lemma component_no_value r d :
  network h (apiUrl (memberId h)) = FetchResolves r ->
  ok r = true ->
  body r = JsonResolves (Some d) ->
  value d = None ->
  MemberComponent.initMemberComponent h w =
    (Returns tt,
     logged (catch_entry h undefined_member) (with_document hidden (requested h w))).
Proof.
  intros Hnet Hok Hbody Hval. enter MemberComponent.initMemberComponent h Hid.
  open_world w. subst. run. rewrite Hnet, Hok. run. rewrite Hbody. run. rewrite Hval.
  reflexivity.
Qed.

Lemma component_renders r d m :
  network h (apiUrl (memberId h)) = FetchResolves r ->
  ok r = true ->
  body r = JsonResolves (Some d) ->
  value d = Some m ->
  MemberComponent.initMemberComponent h w =
    (Returns tt,
     with_document (with_card (fun c => set_card_display "block" (populated h m c)))
       (coloured h m (requested h w))).
Proof.
  intros Hnet Hok Hbody Hval. enter MemberComponent.initMemberComponent h Hid.
  open_world w. subst. run. rewrite Hnet, Hok. run. rewrite Hbody. run. rewrite Hval.
  unfold populated.
  destruct c as [disp [i|] [p|] [n|] [co|] [st|]];
    destruct (opt_chain (latestParty m) backgroundColour) as [[|a s]|];
    reflexivity.
Qed.

End Requested.

End Component_runs.

(** Every page load takes one of the paths. *)
Lemma path_total (h : Host) : Path h.
Proof.
  destruct (truthy (memberId h)) eqn:Hid; [|now apply NoIdentifier].
  destruct (network h (apiUrl (memberId h))) as [r|e] eqn:Hnet;
    [|now apply (RequestRejected h e)].
  destruct (ok r) eqn:Hok; [|now apply (FailureStatus h r)].
  destruct (body r) as [[d|]|e] eqn:Hbody;
    [|now apply (NullBody h r)|now apply (BodyRejected h r e)].
  destruct (value d) as [m|] eqn:Hval.
  - now apply (Parsed h r d m).
  - now apply (NoRecord h r d).
Qed.

(** The paths other than [Parsed] are those on which no record is obtained. *)
Ltac no_record H :=
  unfold parsed_member in H;
  repeat match type of H with
         | context [truthy (memberId ?h)] =>
             match goal with E : truthy (memberId h) = _ |- _ => rewrite E in H end
         | context [network ?h ?u] =>
             match goal with E : network h u = _ |- _ => rewrite E in H end
         | context [ok ?r] =>
             match goal with E : ok r = _ |- _ => rewrite E in H end
         | context [body ?r] =>
             match goal with E : body r = _ |- _ => rewrite E in H end
         | context [value ?d] =>
             match goal with E : value d = _ |- _ => rewrite E in H end
         end.

Lemma child_hidden (r : ChildRef) (w : World) :
  child r (with_document hidden w) = child r w.
Proof.
  unfold child, hidden, with_document, with_card; simpl.
  destruct (mp_card (document w)) as [c|]; [destruct r|]; reflexivity.
Qed.

Lemma hidden_without_card (d : Document) :
  mp_card d = None -> hidden d = d.
Proof.
  destruct d as [c colour]; simpl; intros ->; reflexivity.
Qed.

(** ** The card is populated or shown only after a successful fetch and parse *)

(** C1.  Whenever a page load obtains no member record (no identifier in the
    query string, a rejected request, a failure status, a body that does not
    parse, an envelope without a record), the sibling implementation leaves
    the whole document as it was, and the card-visibility implementation
    leaves it as it was except that the card is hidden: no child of the card
    is written and the card is never shown. *)
Theorem card_left_alone_unless_parsed (h : Host) (w : World) :
  parsed_member h = None ->
  document (snd (Sibling.initMemberComponent h w)) = document w /\
  document (snd (MemberComponent.initMemberComponent h w)) = hidden (document w).
Proof.
  intros Hnone. split.
  - destruct (path_total h) as [Hid|e Hid Hnet|r Hid Hnet Hok|r e Hid Hnet Hok Hbody
                               |r Hid Hnet Hok Hbody|r d Hid Hnet Hok Hbody Hval
                               |r d m Hid Hnet Hok Hbody Hval].
    + now rewrite sibling_no_id.
    + now rewrite (sibling_fetch_rejects h w Hid e).
    + now rewrite (sibling_not_ok h w Hid r).
    + now rewrite (sibling_json_rejects h w Hid r e).
    + now rewrite (sibling_null_body h w Hid r).
    + destruct (mp_card (document w)) as [c|] eqn:Hcard.
      * now rewrite (sibling_no_value h w Hid r d c).
      * now rewrite (sibling_no_card h w Hid r d).
    + no_record Hnone. discriminate.
  - destruct (mp_card (document w)) as [c|] eqn:Hcard;
      [|rewrite component_no_id_or_card by (now right); reflexivity].
    destruct (path_total h) as [Hid|e Hid Hnet|r Hid Hnet Hok|r e Hid Hnet Hok Hbody
                               |r Hid Hnet Hok Hbody|r d Hid Hnet Hok Hbody Hval
                               |r d m Hid Hnet Hok Hbody Hval].
    + rewrite component_no_id_or_card by (now left). reflexivity.
    + now rewrite (component_fetch_rejects h w c Hid Hcard e).
    + now rewrite (component_not_ok h w c Hid Hcard r).
    + now rewrite (component_json_rejects h w c Hid Hcard r e).
    + now rewrite (component_null_body h w c Hid Hcard r).
    + now rewrite (component_no_value h w c Hid Hcard r d).
    + no_record Hnone. discriminate.
Qed.

Lemma card_left_alone_unless_parsed_witness :
  document (snd (Sibling.initMemberComponent
                   unreachable page))
    = document page /\
  document (snd (MemberComponent.initMemberComponent
                   unreachable page))
    = hidden (document page).
Proof.
  apply (card_left_alone_unless_parsed
           unreachable page).
  reflexivity.
Defined.

(** ** A page without an identifier *)

(** C2.  When the query parameter [id] is absent or empty, neither
    implementation issues a request or writes a content element of the card;
    the sibling implementation leaves the document as it was and the
    card-visibility implementation sets the card's display to [none]. *)
Theorem no_identifier_no_request (h : Host) (w : World) :
  memberId h = None \/ memberId h = Some "" ->
  (fetched (snd (Sibling.initMemberComponent h w)) = fetched w /\
   document (snd (Sibling.initMemberComponent h w)) = document w) /\
  (fetched (snd (MemberComponent.initMemberComponent h w)) = fetched w /\
   (forall r, child r (snd (MemberComponent.initMemberComponent h w)) = child r w) /\
   party_color (document (snd (MemberComponent.initMemberComponent h w)))
     = party_color (document w) /\
   mp_card (document (snd (MemberComponent.initMemberComponent h w)))
     = option_map (set_card_display "none") (mp_card (document w))).
Proof.
  intros Habsent.
  assert (Hid : truthy (memberId h) = false) by (destruct Habsent as [-> | ->]; reflexivity).
  rewrite sibling_no_id by exact Hid.
  rewrite component_no_id_or_card by (now left).
  repeat split.
  intros r. cbn [snd]. unfold logged, child at 1. cbn [document with_console].
  apply child_hidden.
Qed.

Lemma no_identifier_no_request_witness :
  (fetched (snd (Sibling.initMemberComponent
                   without_identifier page)) = fetched page /\
   document (snd (Sibling.initMemberComponent
                    without_identifier page)) = document page) /\
  (fetched (snd (MemberComponent.initMemberComponent
                   without_identifier page)) = fetched page /\
   (forall r, child r (snd (MemberComponent.initMemberComponent
                              without_identifier page))
              = child r page) /\
   party_color (document (snd (MemberComponent.initMemberComponent
                                 without_identifier page)))
     = party_color (document page) /\
   mp_card (document (snd (MemberComponent.initMemberComponent
                             without_identifier page)))
     = option_map (set_card_display "none") (mp_card (document page))).
Proof.
  apply (no_identifier_no_request without_identifier page).
  right. reflexivity.
Defined.

(** A parsed record comes from the [Parsed] path. *)
Lemma parsed_path (h : Host) (m : Member) :
  parsed_member h = Some m ->
  truthy (memberId h) = true /\
  exists r d,
    network h (apiUrl (memberId h)) = FetchResolves r /\
    ok r = true /\ body r = JsonResolves (Some d) /\ value d = Some m.
Proof.
  unfold parsed_member.
  destruct (truthy (memberId h)); [|discriminate].
  destruct (network h (apiUrl (memberId h))) as [r|e]; [|discriminate].
  destruct (ok r) eqn:Hok; [|discriminate].
  destruct (body r) as [[d|]|e] eqn:Hbody; try discriminate.
  intros Hval. split; [reflexivity|]. now exists r, d.
Qed.

(** What the rendering step leaves of the world it started from. *)
Lemma rendered_card (f : Card -> Card) (h : Host) (m : Member) (w : World) :
  mp_card (document (with_document (with_card f) (coloured h m (requested h w))))
    = option_map f (mp_card (document w)).
Proof.
  unfold coloured. destruct (opt_chain (latestParty m) backgroundColour) as [[|a s]|];
    reflexivity.
Qed.

Lemma rendered_console (f : Card -> Card) (h : Host) (m : Member) (w : World) :
  console (with_document (with_card f) (coloured h m (requested h w))) = console w.
Proof.
  unfold coloured. destruct (opt_chain (latestParty m) backgroundColour) as [[|a s]|];
    reflexivity.
Qed.

Lemma rendered_fetched (f : Card -> Card) (h : Host) (m : Member) (w : World) :
  fetched (with_document (with_card f) (coloured h m (requested h w)))
    = (fetched w ++ [apiUrl (memberId h)])%list.
Proof.
  unfold coloured. destruct (opt_chain (latestParty m) backgroundColour) as [[|a s]|];
    reflexivity.
Qed.

Lemma rendered_controllers (f : Card -> Card) (h : Host) (m : Member) (w : World) :
  controllers (with_document (with_card f) (coloured h m (requested h w)))
    = (controllers w ++ [mkAbortController false])%list.
Proof.
  unfold coloured. destruct (opt_chain (latestParty m) backgroundColour) as [[|a s]|];
    reflexivity.
Qed.

Lemma rendered_colour_kept (f : Card -> Card) (h : Host) (m : Member) (w : World) :
  truthy (partyColor m) = false ->
  party_color (document (with_document (with_card f) (coloured h m (requested h w))))
    = party_color (document w) /\
  setProperty_calls (with_document (with_card f) (coloured h m (requested h w)))
    = setProperty_calls w.
Proof.
  unfold coloured, partyColor.
  destruct (opt_chain (latestParty m) backgroundColour) as [[|a s]|];
    simpl; intros; try discriminate; split; reflexivity.
Qed.

Lemma rendered_colour_set (f : Card -> Card) (h : Host) (m : Member) (w : World)
    (colour : string) :
  partyColor m = Some colour ->
  colour <> "" ->
  party_color (document (with_document (with_card f) (coloured h m (requested h w))))
    = declare h (formattedColor colour) (party_color (document w)) /\
  setProperty_calls (with_document (with_card f) (coloured h m (requested h w)))
    = (setProperty_calls w ++ [formattedColor colour])%list.
Proof.
  unfold coloured, partyColor. intros -> Hne.
  destruct colour as [|a s]; [contradiction|]. split; reflexivity.
Qed.

(** The card a child belongs to. *)
Lemma child_card (r : ChildRef) (w : World) (el : Element) :
  child r w = Some el ->
  exists c, mp_card (document w) = Some c /\ get_child r c = Some el.
Proof.
  unfold child. destruct (mp_card (document w)) as [c|]; [|discriminate].
  intros H. now exists c.
Qed.

(** The status label after rendering, in either implementation. *)
Lemma rendered_status (g : Card -> Card) (h : Host) (m : Member) (w : World)
    (el : Element) :
  (forall c, mp_card__status (g c) = mp_card__status c) ->
  child StatusRef w = Some el ->
  child StatusRef
    (with_document (with_card (fun c => g (populated h m c))) (coloured h m (requested h w)))
    = Some (if isMembershipActive h (membershipEnd m)
            then status_hidden el else status_shown el).
Proof.
  intros Hg Hel. destruct (child_card _ _ _ Hel) as (c & Hcard & Hst).
  unfold child. rewrite rendered_card, Hcard. cbn [option_map get_child].
  rewrite Hg. unfold populated. cbn [mp_card__status]. simpl in Hst. rewrite Hst.
  fold (membershipEnd m).
  destruct (isMembershipActive h (membershipEnd m)); reflexivity.
Qed.

(** The status label after a page load that obtains record [m]. *)
Lemma status_after_load (h : Host) (w : World) (m : Member) (el : Element) :
  parsed_member h = Some m ->
  child StatusRef w = Some el ->
  child StatusRef (snd (Sibling.initMemberComponent h w))
    = Some (if isMembershipActive h (membershipEnd m)
            then status_hidden el else status_shown el) /\
  child StatusRef (snd (MemberComponent.initMemberComponent h w))
    = Some (if isMembershipActive h (membershipEnd m)
            then status_hidden el else status_shown el).
Proof.
  intros Hm Hel.
  destruct (parsed_path h m Hm) as (Hid & r & d & Hnet & Hok & Hbody & Hval).
  destruct (child_card _ _ _ Hel) as (c & Hcard & _).
  rewrite (sibling_renders h w Hid r d m c Hnet Hok Hbody Hval Hcard).
  rewrite (component_renders h w c Hid Hcard r d m Hnet Hok Hbody Hval).
  cbn [snd]. split.
  - now apply (rendered_status (fun c => c)).
  - now apply (rendered_status (set_card_display "block")).
Qed.

(** ** The membership-active flag and the status label *)

(** C3, as stated, fails for an end date that is the empty string: the date
    is present and does not parse to any instant, yet the flag is true and
    the status label ends up hidden with empty text. *)
Lemma active_flag_empty_end_date :
  parsed_member (answering undated)
    = Some undated /\
  membershipEnd undated = Some "" /\
  ~ (isMembershipActive (answering undated)
       (membershipEnd undated) = true <->
     absent_or_later (answering undated)
       (membershipEnd undated)) /\
  child StatusRef
    (snd (Sibling.initMemberComponent (answering undated) page))
    = Some (status_hidden blank) /\
  child StatusRef
    (snd (MemberComponent.initMemberComponent
            (answering undated) page))
    = Some (status_hidden blank).
Proof.
  repeat split; try reflexivity.
  intros [Hflag _].
  destruct (Hflag eq_refl) as [Habsent | (s & t & Hs & Hparse & _)].
  - discriminate Habsent.
  - injection Hs as <-. discriminate Hparse.
Qed.

(** C3, amended.  For every parsed record the flag is true iff the end date
    is absent, or empty, or parses to an instant strictly later than the
    current one; when the flag is true the status label gets display [none]
    and empty text, and otherwise display [block] and the text
    "No longer serving". *)
Theorem active_flag_and_status_label (h : Host) (w : World) (m : Member) :
  parsed_member h = Some m ->
  (isMembershipActive h (membershipEnd m) = true <->
     membershipEnd m = Some "" \/ absent_or_later h (membershipEnd m)) /\
  (forall el, child StatusRef w = Some el ->
     child StatusRef (snd (Sibling.initMemberComponent h w))
       = Some (if isMembershipActive h (membershipEnd m)
               then status_hidden el else status_shown el) /\
     child StatusRef (snd (MemberComponent.initMemberComponent h w))
       = Some (if isMembershipActive h (membershipEnd m)
               then status_hidden el else status_shown el)).
Proof.
  intros Hm. split.
  - unfold isMembershipActive, absent_or_later.
    destruct (membershipEnd m) as [[|a s]|]; cbn [truthy].
    + split; auto.
    + unfold Date_gt. destruct (Date_parse h (String a s)) as [t|] eqn:Hparse.
      * rewrite Z.ltb_lt. split.
        -- intros Hlt. right. right. now exists (String a s), t.
        -- intros [Hempty | [Habsent | (s' & t' & Hs & Ht & Hlt)]]; try discriminate.
           injection Hs as <-. rewrite Hparse in Ht. now injection Ht as <-.
      * split; [discriminate|].
        intros [Hempty | [Habsent | (s' & t' & Hs & Ht & _)]]; try discriminate.
        injection Hs as <-. rewrite Hparse in Ht. discriminate.
    + split; auto.
  - intros el Hel. now apply status_after_load.
Qed.

Lemma active_flag_and_status_label_witness :
  (isMembershipActive (answering former)
     (membershipEnd former) = true <->
     membershipEnd former = Some "" \/
     absent_or_later (answering former)
       (membershipEnd former)) /\
  (forall el, child StatusRef page = Some el ->
     child StatusRef
       (snd (Sibling.initMemberComponent
               (answering former) page))
       = Some (if isMembershipActive
                    (answering former)
                    (membershipEnd former)
               then status_hidden el else status_shown el) /\
     child StatusRef
       (snd (MemberComponent.initMemberComponent
               (answering former) page))
       = Some (if isMembershipActive
                    (answering former)
                    (membershipEnd former)
               then status_hidden el else status_shown el)).
Proof.
  apply (active_flag_and_status_label
           (answering former) page
           former).
  reflexivity.
Defined.

(** ** An end date that is not a date *)

(** C9, as stated, fails for the empty string: it is present and does not
    parse to an instant, but the comparison is not even evaluated and the
    member is treated as serving, the status label hidden. *)
Lemma unparsable_empty_end_date :
  parsed_member (answering undated) = Some undated /\
  membershipEnd undated = Some "" /\
  Date_parse (answering undated) "" = None /\
  isMembershipActive (answering undated) (membershipEnd undated) <> false /\
  child StatusRef (snd (Sibling.initMemberComponent (answering undated) page))
    <> Some (status_shown blank) /\
  child StatusRef (snd (MemberComponent.initMemberComponent (answering undated) page))
    <> Some (status_shown blank).
Proof.
  repeat split; try reflexivity; discriminate.
Qed.

(** C9, amended.  For every parsed record whose end date is a non-empty
    string that does not parse to an instant, the comparison is false, the
    member is treated as no longer serving, and the status label gets display
    [block] and the text "No longer serving". *)
Theorem unparsable_end_date_inactive (h : Host) (w : World) (m : Member) (s : string) :
  parsed_member h = Some m ->
  membershipEnd m = Some s ->
  s <> "" ->
  Date_parse h s = None ->
  Date_gt (Date_parse h s) (Some (now h)) = false /\
  isMembershipActive h (membershipEnd m) = false /\
  (forall el, child StatusRef w = Some el ->
     child StatusRef (snd (Sibling.initMemberComponent h w)) = Some (status_shown el) /\
     child StatusRef (snd (MemberComponent.initMemberComponent h w))
       = Some (status_shown el)).
Proof.
  intros Hm Hend Hne Hparse.
  assert (Hflag : isMembershipActive h (membershipEnd m) = false).
  { rewrite Hend. unfold isMembershipActive.
    destruct s as [|a s]; [contradiction|]. cbn [truthy]. now rewrite Hparse. }
  split; [now rewrite Hparse|]. split; [exact Hflag|].
  intros el Hel.
  destruct (status_after_load h w m el Hm Hel) as [Hs Hc].
  rewrite Hflag in Hs, Hc. now split.
Qed.

Lemma unparsable_end_date_inactive_witness :
  Date_gt (Date_parse (answering misdated) "last autumn")
    (Some (now (answering misdated))) = false /\
  isMembershipActive (answering misdated) (membershipEnd misdated) = false /\
  (forall el, child StatusRef page = Some el ->
     child StatusRef (snd (Sibling.initMemberComponent (answering misdated) page))
       = Some (status_shown el) /\
     child StatusRef (snd (MemberComponent.initMemberComponent (answering misdated) page))
       = Some (status_shown el)).
Proof.
  apply (unparsable_end_date_inactive (answering misdated) page misdated "last autumn").
  - reflexivity.
  - reflexivity.
  - discriminate.
  - reflexivity.
Defined.

(** ** A response with a failure status *)

(** C4.  When the request is answered with a status outside 200-299, no
    child of the card is written, the failure is logged with the status
    code, and the party colour variable is not set; the sibling
    implementation leaves the whole document as it was and the
    card-visibility implementation hides the card. *)
Theorem failure_status_leaves_content (h : Host) (w : World) (r : Response) :
  truthy (memberId h) = true ->
  network h (apiUrl (memberId h)) = FetchResolves r ->
  (status r < 200 \/ 299 < status r)%N ->
  (document (snd (Sibling.initMemberComponent h w)) = document w /\
   console (snd (Sibling.initMemberComponent h w))
     = (console w ++ [Error ("Fetch failed with status: " ++ Number_toString (status r)) []])%list /\
   setProperty_calls (snd (Sibling.initMemberComponent h w)) = setProperty_calls w) /\
  (mp_card (document w) <> None ->
   (forall ref, child ref (snd (MemberComponent.initMemberComponent h w)) = child ref w) /\
   document (snd (MemberComponent.initMemberComponent h w)) = hidden (document w) /\
   console (snd (MemberComponent.initMemberComponent h w))
     = (console w ++ [Error ("Fetch failed with status: " ++ Number_toString (status r)) []])%list /\
   setProperty_calls (snd (MemberComponent.initMemberComponent h w))
     = setProperty_calls w).
Proof.
  intros Hid Hnet Hstatus.
  assert (Hok : ok r = false).
  { destruct (ok r) eqn:Hok; [|reflexivity]. apply ok_range in Hok. lia. }
  split.
  - rewrite (sibling_not_ok h w Hid r Hnet Hok). repeat split.
  - intros Hcard. destruct (mp_card (document w)) as [c|] eqn:Hc; [|contradiction].
    rewrite (component_not_ok h w c Hid Hc r Hnet Hok). repeat split.
    intros ref. cbn [snd]. apply (child_hidden ref (logged (status_failure r) (requested h w))).
Qed.

Lemma failure_status_leaves_content_witness :
  (document (snd (Sibling.initMemberComponent answering_404 page)) = document page /\
   console (snd (Sibling.initMemberComponent answering_404 page))
     = (console page
          ++ [Error ("Fetch failed with status: " ++ Number_toString (status not_found)) []])%list /\
   setProperty_calls (snd (Sibling.initMemberComponent answering_404 page))
     = setProperty_calls page) /\
  (mp_card (document page) <> None ->
   (forall ref, child ref (snd (MemberComponent.initMemberComponent answering_404 page))
                = child ref page) /\
   document (snd (MemberComponent.initMemberComponent answering_404 page))
     = hidden (document page) /\
   console (snd (MemberComponent.initMemberComponent answering_404 page))
     = (console page
          ++ [Error ("Fetch failed with status: " ++ Number_toString (status not_found)) []])%list /\
   setProperty_calls (snd (MemberComponent.initMemberComponent answering_404 page))
     = setProperty_calls page).
Proof.
  apply (failure_status_leaves_content answering_404 page not_found).
  - reflexivity.
  - reflexivity.
  - right. reflexivity.
Defined.

Example failure_status_message :
  console (snd (MemberComponent.initMemberComponent answering_404 page))
    = [Error "Fetch failed with status: 404" []].
Proof. reflexivity. Qed.

(** ** The party colour *)

Lemma prefix_empty (s : string) : String.prefix "" s = true.
Proof. now destruct s. Qed.

(** The normalisation prepends [#] exactly when it is missing. *)
Lemma formattedColor_cases (colour : string) :
  (startsWith colour "#" = true -> formattedColor colour = colour) /\
  (startsWith colour "#" = false -> formattedColor colour = "#" ++ colour).
Proof.
  unfold formattedColor. split; intros ->; reflexivity.
Qed.

Lemma formattedColor_startsWith (colour : string) :
  startsWith (formattedColor colour) "#" = true.
Proof.
  unfold formattedColor. destruct (startsWith colour "#") eqn:Hhash; [exact Hhash|].
  unfold startsWith. cbn. apply prefix_empty.
Qed.

Lemma formattedColor_idempotent (colour : string) :
  formattedColor (formattedColor colour) = formattedColor colour.
Proof.
  apply formattedColor_cases, formattedColor_startsWith.
Qed.

(** The colour variable after a page load that obtains record [m] and finds
    the card. *)
Lemma colour_after_load (h : Host) (w : World) (m : Member) (c : Card) :
  parsed_member h = Some m ->
  mp_card (document w) = Some c ->
  snd (Sibling.initMemberComponent h w)
    = with_document (with_card (populated h m)) (coloured h m (requested h w)) /\
  snd (MemberComponent.initMemberComponent h w)
    = with_document (with_card (fun c => set_card_display "block" (populated h m c)))
        (coloured h m (requested h w)).
Proof.
  intros Hm Hcard.
  destruct (parsed_path h m Hm) as (Hid & r & d & Hnet & Hok & Hbody & Hval).
  rewrite (sibling_renders h w Hid r d m c Hnet Hok Hbody Hval Hcard).
  rewrite (component_renders h w c Hid Hcard r d m Hnet Hok Hbody Hval).
  now split.
Qed.

(** C5, as stated, fails in two ways.  A colour that is the empty string is
    present, but nothing is written for it (the claim would have [#]
    written); and a colour is written only once the card is found, so that
    on a page without the card "ff0000" is not written either. *)
Lemma colour_not_written :
  (parsed_member (answering colourless) = Some colourless /\
   partyColor colourless = Some "" /\
   party_color (document (snd (Sibling.initMemberComponent (answering colourless) page)))
     <> Some (formattedColor "") /\
   party_color
     (document (snd (MemberComponent.initMemberComponent (answering colourless) page)))
     <> Some (formattedColor "") /\
   setProperty_calls (snd (Sibling.initMemberComponent (answering colourless) page)) = [] /\
   setProperty_calls (snd (MemberComponent.initMemberComponent (answering colourless) page))
     = []) /\
  (parsed_member (answering red) = Some red /\
   partyColor red = Some "ff0000" /\
   party_color
     (document (snd (Sibling.initMemberComponent (answering red) page_without_card)))
     <> Some (formattedColor "ff0000") /\
   party_color
     (document (snd (MemberComponent.initMemberComponent (answering red) page_without_card)))
     <> Some (formattedColor "ff0000") /\
   setProperty_calls (snd (Sibling.initMemberComponent (answering red) page_without_card))
     = [] /\
   setProperty_calls
     (snd (MemberComponent.initMemberComponent (answering red) page_without_card)) = []).
Proof.
  repeat split; try reflexivity; discriminate.
Qed.

(** C5, amended.  For every parsed record, on a page that has the card: for
    a present, non-empty colour exactly one value is handed to
    [setProperty], namely the colour with [#] prepended when it does not
    start with [#] and unchanged when it does, and the variable then holds
    what the style declaration makes of that value; this normalisation is
    idempotent; when the colour is absent or empty, nothing is written and
    the variable keeps its value. *)
Theorem party_colour_normalised (h : Host) (w : World) (m : Member) (c : Card) :
  parsed_member h = Some m ->
  mp_card (document w) = Some c ->
  (forall colour, partyColor m = Some colour -> colour <> "" ->
     (setProperty_calls (snd (Sibling.initMemberComponent h w))
        = (setProperty_calls w ++ [formattedColor colour])%list /\
      setProperty_calls (snd (MemberComponent.initMemberComponent h w))
        = (setProperty_calls w ++ [formattedColor colour])%list) /\
     (party_color (document (snd (Sibling.initMemberComponent h w)))
        = declare h (formattedColor colour) (party_color (document w)) /\
      party_color (document (snd (MemberComponent.initMemberComponent h w)))
        = declare h (formattedColor colour) (party_color (document w))) /\
     (startsWith colour "#" = true -> formattedColor colour = colour) /\
     (startsWith colour "#" = false -> formattedColor colour = "#" ++ colour) /\
     formattedColor (formattedColor colour) = formattedColor colour) /\
  (partyColor m = None \/ partyColor m = Some "" ->
     (party_color (document (snd (Sibling.initMemberComponent h w)))
        = party_color (document w) /\
      setProperty_calls (snd (Sibling.initMemberComponent h w)) = setProperty_calls w) /\
     (party_color (document (snd (MemberComponent.initMemberComponent h w)))
        = party_color (document w) /\
      setProperty_calls (snd (MemberComponent.initMemberComponent h w))
        = setProperty_calls w)).
Proof.
  intros Hm Hcard.
  destruct (colour_after_load h w m c Hm Hcard) as [-> ->].
  split.
  - intros colour Hcolour Hne.
    destruct (rendered_colour_set (populated h m) h m w colour Hcolour Hne)
      as [Hs_value Hs_calls].
    destruct (rendered_colour_set
                (fun c => set_card_display "block" (populated h m c)) h m w colour
                Hcolour Hne) as [Hc_value Hc_calls].
    repeat split; try assumption.
    + apply formattedColor_cases.
    + apply formattedColor_cases.
    + apply formattedColor_idempotent.
  - intros Habsent.
    assert (Hfalsy : truthy (partyColor m) = false)
      by (destruct Habsent as [-> | ->]; reflexivity).
    split; now apply rendered_colour_kept.
Qed.

Lemma party_colour_normalised_witness :
  (forall colour, partyColor red_spaced = Some colour -> colour <> "" ->
     (setProperty_calls (snd (Sibling.initMemberComponent (answering red_spaced) page))
        = (setProperty_calls page ++ [formattedColor colour])%list /\
      setProperty_calls (snd (MemberComponent.initMemberComponent (answering red_spaced) page))
        = (setProperty_calls page ++ [formattedColor colour])%list) /\
     (party_color (document (snd (Sibling.initMemberComponent (answering red_spaced) page)))
        = declare (answering red_spaced) (formattedColor colour)
            (party_color (document page)) /\
      party_color
        (document (snd (MemberComponent.initMemberComponent (answering red_spaced) page)))
        = declare (answering red_spaced) (formattedColor colour)
            (party_color (document page))) /\
     (startsWith colour "#" = true -> formattedColor colour = colour) /\
     (startsWith colour "#" = false -> formattedColor colour = "#" ++ colour) /\
     formattedColor (formattedColor colour) = formattedColor colour) /\
  (partyColor red_spaced = None \/ partyColor red_spaced = Some "" ->
     (party_color (document (snd (Sibling.initMemberComponent (answering red_spaced) page)))
        = party_color (document page) /\
      setProperty_calls (snd (Sibling.initMemberComponent (answering red_spaced) page))
        = setProperty_calls page) /\
     (party_color
        (document (snd (MemberComponent.initMemberComponent (answering red_spaced) page)))
        = party_color (document page) /\
      setProperty_calls (snd (MemberComponent.initMemberComponent (answering red_spaced) page))
        = setProperty_calls page)).
Proof.
  apply (party_colour_normalised (answering red_spaced) page red_spaced template_card).
  - reflexivity.
  - reflexivity.
Defined.

(** A colour followed by a space: the value handed to [setProperty] keeps
    the space, the variable does not. *)
Example spaced_colour :
  setProperty_calls (snd (MemberComponent.initMemberComponent (answering red_spaced) page))
    = ["#ff0000 "] /\
  party_color (document (snd (MemberComponent.initMemberComponent (answering red_spaced) page)))
    = Some "#ff0000".
Proof. split; reflexivity. Qed.

Example party_colour_examples :
  party_color (document (snd (MemberComponent.initMemberComponent (answering red) page)))
    = Some "#ff0000" /\
  formattedColor "#00ff00" = "#00ff00" /\
  party_color (document (snd (Sibling.initMemberComponent (answering jane) page)))
    = Some "#abcdef".
Proof. repeat split. Qed.

(** ** A record without a party *)

(** C6.  For every parsed record in which [latestParty] is absent, the party
    label's text is set to "N/A" and no write to the colour variable
    occurs. *)
Theorem missing_party_label (h : Host) (w : World) (m : Member) :
  parsed_member h = Some m ->
  latestParty m = None ->
  (forall el, child PartyRef w = Some el ->
     child PartyRef (snd (Sibling.initMemberComponent h w))
       = Some (set_textContent "N/A" el) /\
     child PartyRef (snd (MemberComponent.initMemberComponent h w))
       = Some (set_textContent "N/A" el)) /\
  (setProperty_calls (snd (Sibling.initMemberComponent h w)) = setProperty_calls w /\
   party_color (document (snd (Sibling.initMemberComponent h w)))
     = party_color (document w)) /\
  (setProperty_calls (snd (MemberComponent.initMemberComponent h w)) = setProperty_calls w /\
   party_color (document (snd (MemberComponent.initMemberComponent h w)))
     = party_color (document w)).
Proof.
  intros Hm Hparty.
  assert (Hfalsy : truthy (partyColor m) = false)
    by (unfold partyColor; now rewrite Hparty).
  split.
  - intros el Hel. destruct (child_card _ _ _ Hel) as (c & Hcard & Hget).
    destruct (colour_after_load h w m c Hm Hcard) as [-> ->].
    unfold child. rewrite !rendered_card, Hcard. unfold populated. rewrite Hparty.
    simpl in Hget. cbn. rewrite Hget. now split.
  - destruct (mp_card (document w)) as [c|] eqn:Hcard.
    + destruct (colour_after_load h w m c Hm Hcard) as [-> ->].
      destruct (rendered_colour_kept (populated h m) h m w Hfalsy).
      destruct (rendered_colour_kept
                  (fun c => set_card_display "block" (populated h m c)) h m w Hfalsy).
      now repeat split.
    + destruct (parsed_path h m Hm) as (Hid & r & d & Hnet & Hok & Hbody & Hval).
      rewrite (sibling_no_card h w Hid r d Hnet Hok Hbody Hcard).
      rewrite component_no_id_or_card by (now right).
      now repeat split.
Qed.

Lemma missing_party_label_witness :
  (forall el, child PartyRef page = Some el ->
     child PartyRef (snd (Sibling.initMemberComponent (answering partyless) page))
       = Some (set_textContent "N/A" el) /\
     child PartyRef (snd (MemberComponent.initMemberComponent (answering partyless) page))
       = Some (set_textContent "N/A" el)) /\
  (setProperty_calls (snd (Sibling.initMemberComponent (answering partyless) page))
     = setProperty_calls page /\
   party_color (document (snd (Sibling.initMemberComponent (answering partyless) page)))
     = party_color (document page)) /\
  (setProperty_calls (snd (MemberComponent.initMemberComponent (answering partyless) page))
     = setProperty_calls page /\
   party_color
     (document (snd (MemberComponent.initMemberComponent (answering partyless) page)))
     = party_color (document page)).
Proof.
  apply (missing_party_label (answering partyless) page partyless).
  - reflexivity.
  - reflexivity.
Defined.

(** ** Failures end in the console *)

Lemma catch_entry_diagnostic (h : Host) (e : Thrown) : diagnostic (catch_entry h e).
Proof. unfold catch_entry. now destruct (is_abort_error e). Qed.

Lemma catch_entry_abort (h : Host) (e : Thrown) :
  catch_entry h e = Warn "Fetch request was aborted" -> is_abort_error e = true.
Proof. unfold catch_entry. now destruct (is_abort_error e). Qed.

Ltac silent_footprint :=
  split;
  [ reflexivity
  | cbn [snd]; rewrite ?rendered_fetched, ?rendered_controllers; auto
  | left; cbn [snd]; rewrite ?rendered_console; split; [reflexivity | congruence] ].

Ltac noisy_footprint entry :=
  split;
  [ reflexivity
  | cbn [snd]; auto
  | right; exists entry; cbn [snd]; split; [reflexivity|]; split;
    [ try exact I; try apply catch_entry_diagnostic | try discriminate ] ].

Lemma sibling_footprint (h : Host) (w : World) :
  Footprint h w (Sibling.initMemberComponent h w).
Proof.
  destruct (path_total h) as [Hid|e Hid Hnet|r Hid Hnet Hok|r e Hid Hnet Hok Hbody
                             |r Hid Hnet Hok Hbody|r d Hid Hnet Hok Hbody Hval
                               |r d m Hid Hnet Hok Hbody Hval].
  - rewrite sibling_no_id by exact Hid.
    noisy_footprint (Warn "No member ID provided in the query parameters").
  - rewrite (sibling_fetch_rejects h w Hid e Hnet).
    noisy_footprint (catch_entry h e).
    intros Habort%catch_entry_abort. exists e. auto.
  - rewrite (sibling_not_ok h w Hid r Hnet Hok).
    noisy_footprint (status_failure r).
  - rewrite (sibling_json_rejects h w Hid r e Hnet Hok Hbody).
    noisy_footprint (catch_entry h e).
    intros Habort%catch_entry_abort. exists e. split; [exact Habort|]. right. now exists r.
  - rewrite (sibling_null_body h w Hid r Hnet Hok Hbody).
    noisy_footprint (catch_entry h null_body).
  - destruct (mp_card (document w)) as [c|] eqn:Hcard.
    + rewrite (sibling_no_value h w Hid r d c Hnet Hok Hbody Hval Hcard).
      noisy_footprint (catch_entry h undefined_member).
    + rewrite (sibling_no_card h w Hid r d Hnet Hok Hbody Hcard).
      noisy_footprint (Warn "Member card element not found").
  - assert (Hm : parsed_member h = Some m)
      by (unfold parsed_member; now rewrite Hid, Hnet, Hok, Hbody).
    destruct (mp_card (document w)) as [c|] eqn:Hcard.
    + rewrite (sibling_renders h w Hid r d m c Hnet Hok Hbody Hval Hcard).
      silent_footprint.
    + rewrite (sibling_no_card h w Hid r d Hnet Hok Hbody Hcard).
      noisy_footprint (Warn "Member card element not found").
Qed.

Lemma component_footprint (h : Host) (w : World) :
  Footprint h w (MemberComponent.initMemberComponent h w).
Proof.
  destruct (mp_card (document w)) as [c|] eqn:Hcard.
  2:{ rewrite component_no_id_or_card by (now right).
      noisy_footprint (Warn "No member ID provided or card element not found"). }
  destruct (path_total h) as [Hid|e Hid Hnet|r Hid Hnet Hok|r e Hid Hnet Hok Hbody
                             |r Hid Hnet Hok Hbody|r d Hid Hnet Hok Hbody Hval
                               |r d m Hid Hnet Hok Hbody Hval].
  - rewrite component_no_id_or_card by (now left).
    noisy_footprint (Warn "No member ID provided or card element not found").
  - rewrite (component_fetch_rejects h w c Hid Hcard e Hnet).
    noisy_footprint (catch_entry h e).
    intros Habort%catch_entry_abort. exists e. auto.
  - rewrite (component_not_ok h w c Hid Hcard r Hnet Hok).
    noisy_footprint (status_failure r).
  - rewrite (component_json_rejects h w c Hid Hcard r e Hnet Hok Hbody).
    noisy_footprint (catch_entry h e).
    intros Habort%catch_entry_abort. exists e. split; [exact Habort|]. right. now exists r.
  - rewrite (component_null_body h w c Hid Hcard r Hnet Hok Hbody).
    noisy_footprint (catch_entry h null_body).
  - rewrite (component_no_value h w c Hid Hcard r d Hnet Hok Hbody Hval).
    noisy_footprint (catch_entry h undefined_member).
  - assert (Hm : parsed_member h = Some m)
      by (unfold parsed_member; now rewrite Hid, Hnet, Hok, Hbody).
    rewrite (component_renders h w c Hid Hcard r d m Hnet Hok Hbody Hval).
    silent_footprint.
Qed.

(** C7.  Every invocation resolves normally, whatever fails: neither
    implementation throws or rejects, and the bootstrap constructor that
    starts the component gets a promise that resolves; at most one request
    is issued; and every load that obtains no record ends with exactly one
    diagnostic entry appended to the console. *)
Theorem failures_are_contained (h : Host) (w : World) :
  (fst (Sibling.initMemberComponent h w) = Returns tt /\
   fst (MemberComponent.initMemberComponent h w) = Returns tt /\
   fst (Main h w) = Returns (Returns tt)) /\
  ((fetched (snd (Sibling.initMemberComponent h w)) = fetched w \/
    fetched (snd (Sibling.initMemberComponent h w))
      = (fetched w ++ [apiUrl (memberId h)])%list) /\
   (fetched (snd (MemberComponent.initMemberComponent h w)) = fetched w \/
    fetched (snd (MemberComponent.initMemberComponent h w))
      = (fetched w ++ [apiUrl (memberId h)])%list)) /\
  (parsed_member h = None ->
   (exists entry,
      console (snd (Sibling.initMemberComponent h w)) = (console w ++ [entry])%list /\
      diagnostic entry) /\
   (exists entry,
      console (snd (MemberComponent.initMemberComponent h w)) = (console w ++ [entry])%list /\
      diagnostic entry)).
Proof.
  destruct (sibling_footprint h w) as [Hs_res Hs_req Hs_log].
  destruct (component_footprint h w) as [Hc_res Hc_req Hc_log].
  repeat split.
  - exact Hs_res.
  - exact Hc_res.
  - unfold Main, bind, console_log, modify, call_async.
    destruct (component_footprint h
                (with_console (fun out => (out ++ [Log verificationLog])%list) w))
      as [Hres _ _].
    destruct (MemberComponent.initMemberComponent h _) as [o w'] in Hres |- *.
    simpl in Hres. now rewrite Hres.
  - destruct Hs_req as [[Hreq _] | [Hreq _]]; auto.
  - destruct Hc_req as [[Hreq _] | [Hreq _]]; auto.
  - destruct Hs_log as [[_ Hsome] | (entry & Hlog & Hdiag & _)]; [contradiction|].
    now exists entry.
  - destruct Hc_log as [[_ Hsome] | (entry & Hlog & Hdiag & _)]; [contradiction|].
    now exists entry.
Qed.

Lemma failures_are_contained_witness :
  (fst (Sibling.initMemberComponent unreachable page) = Returns tt /\
   fst (MemberComponent.initMemberComponent unreachable page) = Returns tt /\
   fst (Main unreachable page) = Returns (Returns tt)) /\
  ((fetched (snd (Sibling.initMemberComponent unreachable page)) = fetched page \/
    fetched (snd (Sibling.initMemberComponent unreachable page))
      = (fetched page ++ [apiUrl (memberId unreachable)])%list) /\
   (fetched (snd (MemberComponent.initMemberComponent unreachable page)) = fetched page \/
    fetched (snd (MemberComponent.initMemberComponent unreachable page))
      = (fetched page ++ [apiUrl (memberId unreachable)])%list)) /\
  (parsed_member unreachable = None ->
   (exists entry,
      console (snd (Sibling.initMemberComponent unreachable page))
        = (console page ++ [entry])%list /\
      diagnostic entry) /\
   (exists entry,
      console (snd (MemberComponent.initMemberComponent unreachable page))
        = (console page ++ [entry])%list /\
      diagnostic entry)).
Proof.
  exact (failures_are_contained unreachable page).
Defined.

Example unreachable_is_logged :
  MemberComponent.initMemberComponent unreachable page
    = (Returns tt,
       mkWorld (mkDocument (Some (set_card_display "none" template_card)) None)
         [Error "Error fetching data for member ID 172:" [network_error]]
         ["https://members-api.parliament.uk/api/members/172"]
         [mkAbortController false] []).
Proof. reflexivity. Qed.

(** ** The card is located before the colour is written *)

(** C8, as stated, fails: on a page without the card, a record whose party
    colour is "ff0000" leaves the colour variable unset in both
    implementations; only the warning is logged. *)
Lemma colour_not_set_without_card :
  parsed_member (answering red) = Some red /\
  partyColor red = Some "ff0000" /\
  mp_card (document page_without_card) = None /\
  party_color (document (snd (Sibling.initMemberComponent (answering red) page_without_card)))
    <> Some "#ff0000" /\
  setProperty_calls (snd (Sibling.initMemberComponent (answering red) page_without_card))
    = [] /\
  console (snd (Sibling.initMemberComponent (answering red) page_without_card))
    = [Warn "Member card element not found"] /\
  party_color
    (document (snd (MemberComponent.initMemberComponent (answering red) page_without_card)))
    <> Some "#ff0000".
Proof.
  repeat split; try reflexivity; discriminate.
Qed.

(** C8, amended.  The card is located before the colour is written: on a page
    without the card neither implementation writes the colour variable or
    anything else in the document.  The sibling implementation, once it has
    parsed a record, logs the warning "Member card element not found" and
    stops; the card-visibility implementation stops before any request with
    the warning "No member ID provided or card element not found". *)
Theorem card_located_before_colour (h : Host) (w : World) :
  mp_card (document w) = None ->
  (document (snd (Sibling.initMemberComponent h w)) = document w /\
   setProperty_calls (snd (Sibling.initMemberComponent h w)) = setProperty_calls w /\
   (forall m, parsed_member h = Some m ->
      console (snd (Sibling.initMemberComponent h w))
        = (console w ++ [Warn "Member card element not found"])%list)) /\
  (document (snd (MemberComponent.initMemberComponent h w)) = document w /\
   setProperty_calls (snd (MemberComponent.initMemberComponent h w)) = setProperty_calls w /\
   fetched (snd (MemberComponent.initMemberComponent h w)) = fetched w /\
   console (snd (MemberComponent.initMemberComponent h w))
     = (console w ++ [Warn "No member ID provided or card element not found"])%list).
Proof.
  intros Hcard. split.
  - destruct (path_total h) as [Hid|e Hid Hnet|r Hid Hnet Hok|r e Hid Hnet Hok Hbody
                               |r Hid Hnet Hok Hbody|r d Hid Hnet Hok Hbody Hval
                               |r d m Hid Hnet Hok Hbody Hval].
    + rewrite sibling_no_id by exact Hid.
      repeat split. intros m Hm. no_record Hm. discriminate.
    + rewrite (sibling_fetch_rejects h w Hid e Hnet).
      repeat split. intros m Hm. no_record Hm. discriminate.
    + rewrite (sibling_not_ok h w Hid r Hnet Hok).
      repeat split. intros m Hm. no_record Hm. discriminate.
    + rewrite (sibling_json_rejects h w Hid r e Hnet Hok Hbody).
      repeat split. intros m Hm. no_record Hm. discriminate.
    + rewrite (sibling_null_body h w Hid r Hnet Hok Hbody).
      repeat split. intros m Hm. no_record Hm. discriminate.
    + rewrite (sibling_no_card h w Hid r d Hnet Hok Hbody Hcard). now repeat split.
    + rewrite (sibling_no_card h w Hid r d Hnet Hok Hbody Hcard). now repeat split.
  - rewrite component_no_id_or_card by (now right).
    cbn [snd]. repeat split.
    apply (hidden_without_card (document w) Hcard).
Qed.

Lemma card_located_before_colour_witness :
  (document (snd (Sibling.initMemberComponent (answering red) page_without_card))
     = document page_without_card /\
   setProperty_calls (snd (Sibling.initMemberComponent (answering red) page_without_card))
     = setProperty_calls page_without_card /\
   (forall m, parsed_member (answering red) = Some m ->
      console (snd (Sibling.initMemberComponent (answering red) page_without_card))
        = (console page_without_card ++ [Warn "Member card element not found"])%list)) /\
  (document (snd (MemberComponent.initMemberComponent (answering red) page_without_card))
     = document page_without_card /\
   setProperty_calls
     (snd (MemberComponent.initMemberComponent (answering red) page_without_card))
     = setProperty_calls page_without_card /\
   fetched (snd (MemberComponent.initMemberComponent (answering red) page_without_card))
     = fetched page_without_card /\
   console (snd (MemberComponent.initMemberComponent (answering red) page_without_card))
     = (console page_without_card
          ++ [Warn "No member ID provided or card element not found"])%list).
Proof.
  apply (card_located_before_colour (answering red) page_without_card).
  reflexivity.
Defined.

(** ** The cancellation token *)

(** A token that reads as aborted after a load already did before it. *)
Lemma no_new_abort (w w' : World) (i : nat) :
  controllers w' = controllers w \/
  controllers w' = (controllers w ++ [mkAbortController false])%list ->
  signal_aborted i w' = true -> signal_aborted i w = true.
Proof.
  unfold signal_aborted. intros [-> | ->]; [trivial|].
  destruct (Nat.lt_ge_cases i (length (controllers w))) as [Hlt | Hge].
  - now rewrite nth_error_app1.
  - rewrite nth_error_app2 by exact Hge.
    destruct (i - length (controllers w)) as [|[|k]]; simpl; discriminate.
Qed.

(** Once past the guard, an invocation creates exactly one token. *)
Lemma sibling_token (h : Host) (w : World) :
  truthy (memberId h) = true ->
  controllers (snd (Sibling.initMemberComponent h w))
    = (controllers w ++ [mkAbortController false])%list.
Proof.
  intros Hguard.
  destruct (path_total h) as [Hid|e Hid Hnet|r Hid Hnet Hok|r e Hid Hnet Hok Hbody
                             |r Hid Hnet Hok Hbody|r d Hid Hnet Hok Hbody Hval
                             |r d m Hid Hnet Hok Hbody Hval].
  - congruence.
  - now rewrite (sibling_fetch_rejects h w Hid e Hnet).
  - now rewrite (sibling_not_ok h w Hid r Hnet Hok).
  - now rewrite (sibling_json_rejects h w Hid r e Hnet Hok Hbody).
  - now rewrite (sibling_null_body h w Hid r Hnet Hok Hbody).
  - destruct (mp_card (document w)) as [c|] eqn:Hcard.
    + now rewrite (sibling_no_value h w Hid r d c Hnet Hok Hbody Hval Hcard).
    + now rewrite (sibling_no_card h w Hid r d Hnet Hok Hbody Hcard).
  - destruct (mp_card (document w)) as [c|] eqn:Hcard.
    + rewrite (sibling_renders h w Hid r d m c Hnet Hok Hbody Hval Hcard).
      apply rendered_controllers.
    + now rewrite (sibling_no_card h w Hid r d Hnet Hok Hbody Hcard).
Qed.

Lemma component_token (h : Host) (w : World) :
  truthy (memberId h) = true ->
  mp_card (document w) <> None ->
  controllers (snd (MemberComponent.initMemberComponent h w))
    = (controllers w ++ [mkAbortController false])%list.
Proof.
  intros Hguard Hpresent.
  destruct (mp_card (document w)) as [c|] eqn:Hcard; [|contradiction].
  destruct (path_total h) as [Hid|e Hid Hnet|r Hid Hnet Hok|r e Hid Hnet Hok Hbody
                             |r Hid Hnet Hok Hbody|r d Hid Hnet Hok Hbody Hval
                             |r d m Hid Hnet Hok Hbody Hval].
  - congruence.
  - now rewrite (component_fetch_rejects h w c Hid Hcard e Hnet).
  - now rewrite (component_not_ok h w c Hid Hcard r Hnet Hok).
  - now rewrite (component_json_rejects h w c Hid Hcard r e Hnet Hok Hbody).
  - now rewrite (component_null_body h w c Hid Hcard r Hnet Hok Hbody).
  - now rewrite (component_no_value h w c Hid Hcard r d Hnet Hok Hbody Hval).
  - rewrite (component_renders h w c Hid Hcard r d m Hnet Hok Hbody Hval).
    apply rendered_controllers.
Qed.

(** C10, as stated, fails on the invocations that stop at the guard: without
    an identifier no cancellation token is created at all. *)
Lemma no_token_without_identifier :
  memberId without_identifier = Some "" /\
  controllers (snd (Sibling.initMemberComponent without_identifier page))
    = controllers page /\
  controllers (snd (MemberComponent.initMemberComponent without_identifier page))
    = controllers page /\
  controllers (snd (Sibling.initMemberComponent without_identifier page))
    <> (controllers page ++ [mkAbortController false])%list.
Proof.
  repeat split; try reflexivity; discriminate.
Qed.

(** C10, amended.  Every invocation that gets past its guard (an identifier
    is present and, in the card-visibility implementation, the card exists)
    creates one fresh cancellation token, and an invocation that stops at
    its guard creates none; the token is not aborted when the invocation ends
    and no token that existed before is aborted; and the warning
    "Fetch request was aborted" is printed by an invocation only when the
    host itself raises an abort error, from the request or from reading the
    body. *)
Theorem abort_only_from_host (h : Host) (w : World) :
  ((truthy (memberId h) = false ->
    controllers (snd (Sibling.initMemberComponent h w)) = controllers w) /\
   (truthy (memberId h) = false \/ mp_card (document w) = None ->
    controllers (snd (MemberComponent.initMemberComponent h w)) = controllers w)) /\
  ((truthy (memberId h) = true ->
    controllers (snd (Sibling.initMemberComponent h w))
      = (controllers w ++ [mkAbortController false])%list) /\
   (truthy (memberId h) = true -> mp_card (document w) <> None ->
    controllers (snd (MemberComponent.initMemberComponent h w))
      = (controllers w ++ [mkAbortController false])%list)) /\
  ((controllers (snd (Sibling.initMemberComponent h w)) = controllers w \/
    controllers (snd (Sibling.initMemberComponent h w))
      = (controllers w ++ [mkAbortController false])%list) /\
   (controllers (snd (MemberComponent.initMemberComponent h w)) = controllers w \/
    controllers (snd (MemberComponent.initMemberComponent h w))
      = (controllers w ++ [mkAbortController false])%list)) /\
  (forall i,
     (signal_aborted i (snd (Sibling.initMemberComponent h w)) = true ->
      signal_aborted i w = true) /\
     (signal_aborted i (snd (MemberComponent.initMemberComponent h w)) = true ->
      signal_aborted i w = true)) /\
  (In (Warn "Fetch request was aborted") (console (snd (Sibling.initMemberComponent h w))) ->
   In (Warn "Fetch request was aborted") (console w) \/ host_raises_abort h) /\
  (In (Warn "Fetch request was aborted")
     (console (snd (MemberComponent.initMemberComponent h w))) ->
   In (Warn "Fetch request was aborted") (console w) \/ host_raises_abort h).
Proof.
  destruct (sibling_footprint h w) as [_ Hs_req Hs_log].
  destruct (component_footprint h w) as [_ Hc_req Hc_log].
  assert (Hs_tok : controllers (snd (Sibling.initMemberComponent h w)) = controllers w \/
                   controllers (snd (Sibling.initMemberComponent h w))
                     = (controllers w ++ [mkAbortController false])%list)
    by (destruct Hs_req as [[_ Htok] | [_ Htok]]; auto).
  assert (Hc_tok : controllers (snd (MemberComponent.initMemberComponent h w))
                     = controllers w \/
                   controllers (snd (MemberComponent.initMemberComponent h w))
                     = (controllers w ++ [mkAbortController false])%list)
    by (destruct Hc_req as [[_ Htok] | [_ Htok]]; auto).
  split.
  { split.
    - intros Hid. now rewrite sibling_no_id.
    - intros Hguard. now rewrite component_no_id_or_card. }
  split; [split; [apply sibling_token | apply component_token]|].
  split; [now split|]. split.
  - intros i. split; now apply no_new_abort.
  - split.
    + destruct Hs_log as [[-> _] | (entry & -> & _ & Hhost)]; [now left|].
      intros [Hold | [-> | []]]%in_app_or; auto.
    + destruct Hc_log as [[-> _] | (entry & -> & _ & Hhost)]; [now left|].
      intros [Hold | [-> | []]]%in_app_or; auto.
Qed.

Lemma abort_only_from_host_witness :
  ((truthy (memberId cut_off) = false ->
    controllers (snd (Sibling.initMemberComponent cut_off page)) = controllers page) /\
   (truthy (memberId cut_off) = false \/ mp_card (document page) = None ->
    controllers (snd (MemberComponent.initMemberComponent cut_off page))
      = controllers page)) /\
  ((truthy (memberId cut_off) = true ->
    controllers (snd (Sibling.initMemberComponent cut_off page))
      = (controllers page ++ [mkAbortController false])%list) /\
   (truthy (memberId cut_off) = true -> mp_card (document page) <> None ->
    controllers (snd (MemberComponent.initMemberComponent cut_off page))
      = (controllers page ++ [mkAbortController false])%list)) /\
  ((controllers (snd (Sibling.initMemberComponent cut_off page)) = controllers page \/
    controllers (snd (Sibling.initMemberComponent cut_off page))
      = (controllers page ++ [mkAbortController false])%list) /\
   (controllers (snd (MemberComponent.initMemberComponent cut_off page)) = controllers page \/
    controllers (snd (MemberComponent.initMemberComponent cut_off page))
      = (controllers page ++ [mkAbortController false])%list)) /\
  (forall i,
     (signal_aborted i (snd (Sibling.initMemberComponent cut_off page)) = true ->
      signal_aborted i page = true) /\
     (signal_aborted i (snd (MemberComponent.initMemberComponent cut_off page)) = true ->
      signal_aborted i page = true)) /\
  (In (Warn "Fetch request was aborted")
     (console (snd (Sibling.initMemberComponent cut_off page))) ->
   In (Warn "Fetch request was aborted") (console page) \/ host_raises_abort cut_off) /\
  (In (Warn "Fetch request was aborted")
     (console (snd (MemberComponent.initMemberComponent cut_off page))) ->
   In (Warn "Fetch request was aborted") (console page) \/ host_raises_abort cut_off).
Proof.
  exact (abort_only_from_host cut_off page).
Defined.

(** A token that is aborted before the request does make [fetch] reject; no
    implementation runs this sequence. *)
Example aborted_request_is_rejected :
  fst ((controller <- new_AbortController ;;
        abort controller ;;
        fetch (answering jane) (apiUrl (Some "172")) controller)%eff page)
    = Throws AbortError.
Proof. reflexivity. Qed.

(** An abort error raised by the host does reach the branch. *)
Example cut_off_is_warned :
  console (snd (Sibling.initMemberComponent cut_off page))
    = [Warn "Fetch request was aborted"] /\
  console (snd (MemberComponent.initMemberComponent cut_off page))
    = [Warn "Fetch request was aborted"].
Proof. split; reflexivity. Qed.

(** ** The end-to-end example of the specification *)

Example end_to_end :
  MemberComponent.initMemberComponent (answering jane) page
    = (Returns tt,
       mkWorld
         (mkDocument
            (Some (mkCard "block"
                     (Some (mkElement "http://x/y.jpg" "" ""))
                     (Some (mkElement "" "Independent" ""))
                     (Some (mkElement "" "Jane Doe" ""))
                     (Some (mkElement "" "Testshire" ""))
                     (Some (mkElement "" "" "none"))))
            (Some "#abcdef"))
         []
         ["https://members-api.parliament.uk/api/members/172"]
         [mkAbortController false]
         ["#abcdef"]).
Proof. reflexivity. Qed.

Example former_member_is_flagged :
  child StatusRef (snd (Sibling.initMemberComponent (answering former) page))
    = Some (mkElement "" "No longer serving" "block").
Proof. reflexivity. Qed.

(** * Further properties of the two implementations *)

(** ** The two implementations side by side *)

Lemma load_view (h : Host) (w : World) :
  Load h w (snd (Sibling.initMemberComponent h w))
    (snd (MemberComponent.initMemberComponent h w)).
Proof.
  destruct (path_total h) as [Hid|e Hid Hnet|r Hid Hnet Hok|r e Hid Hnet Hok Hbody
                             |r Hid Hnet Hok Hbody|r d Hid Hnet Hok Hbody Hval
                             |r d m Hid Hnet Hok Hbody Hval].
  - rewrite sibling_no_id by exact Hid.
    rewrite component_no_id_or_card by (now left).
    apply load_no_identifier; [exact Hid|]. unfold parsed_member. now rewrite Hid.
  - assert (Hm : parsed_member h = None)
      by (unfold parsed_member; now rewrite Hid, Hnet).
    rewrite (sibling_fetch_rejects h w Hid e Hnet).
    destruct (mp_card (document w)) as [c|] eqn:Hcard.
    + rewrite (component_fetch_rejects h w c Hid Hcard e Hnet).
      apply (load_failed h w c); auto using catch_entry_diagnostic.
    + rewrite component_no_id_or_card by (now right).
      apply load_no_card; auto using catch_entry_diagnostic.
  - assert (Hm : parsed_member h = None)
      by (unfold parsed_member; now rewrite Hid, Hnet, Hok).
    rewrite (sibling_not_ok h w Hid r Hnet Hok).
    destruct (mp_card (document w)) as [c|] eqn:Hcard.
    + rewrite (component_not_ok h w c Hid Hcard r Hnet Hok).
      apply (load_failed h w c (status_failure r)); auto. exact I.
    + rewrite component_no_id_or_card by (now right).
      apply load_no_card; auto. exact I.
  - assert (Hm : parsed_member h = None)
      by (unfold parsed_member; now rewrite Hid, Hnet, Hok, Hbody).
    rewrite (sibling_json_rejects h w Hid r e Hnet Hok Hbody).
    destruct (mp_card (document w)) as [c|] eqn:Hcard.
    + rewrite (component_json_rejects h w c Hid Hcard r e Hnet Hok Hbody).
      apply (load_failed h w c); auto using catch_entry_diagnostic.
    + rewrite component_no_id_or_card by (now right).
      apply load_no_card; auto using catch_entry_diagnostic.
  - assert (Hm : parsed_member h = None)
      by (unfold parsed_member; now rewrite Hid, Hnet, Hok, Hbody).
    rewrite (sibling_null_body h w Hid r Hnet Hok Hbody).
    destruct (mp_card (document w)) as [c|] eqn:Hcard.
    + rewrite (component_null_body h w c Hid Hcard r Hnet Hok Hbody).
      apply (load_failed h w c); auto using catch_entry_diagnostic.
    + rewrite component_no_id_or_card by (now right).
      apply load_no_card; auto using catch_entry_diagnostic.
  - assert (Hm : parsed_member h = None)
      by (unfold parsed_member; now rewrite Hid, Hnet, Hok, Hbody).
    destruct (mp_card (document w)) as [c|] eqn:Hcard.
    + rewrite (sibling_no_value h w Hid r d c Hnet Hok Hbody Hval Hcard).
      rewrite (component_no_value h w c Hid Hcard r d Hnet Hok Hbody Hval).
      apply (load_failed h w c); auto using catch_entry_diagnostic.
    + rewrite (sibling_no_card h w Hid r d Hnet Hok Hbody Hcard).
      rewrite component_no_id_or_card by (now right).
      apply load_no_card; auto. exact I.
  - assert (Hm : parsed_member h = Some m)
      by (unfold parsed_member; now rewrite Hid, Hnet, Hok, Hbody).
    destruct (mp_card (document w)) as [c|] eqn:Hcard.
    + rewrite (sibling_renders h w Hid r d m c Hnet Hok Hbody Hval Hcard).
      rewrite (component_renders h w c Hid Hcard r d m Hnet Hok Hbody Hval).
      now apply (load_rendered h w c m).
    + rewrite (sibling_no_card h w Hid r d Hnet Hok Hbody Hcard).
      rewrite component_no_id_or_card by (now right).
      apply load_no_card; auto. exact I.
Qed.

Lemma coloured_card (h : Host) (m : Member) (w : World) :
  mp_card (document (coloured h m w)) = mp_card (document w).
Proof.
  unfold coloured. destruct (opt_chain (latestParty m) backgroundColour) as [[|a s]|];
    reflexivity.
Qed.

(** X4.  On a page that has the card, the two implementations differ only in
    the card's display: the card-visibility implementation ends in the
    sibling's document with the display set to [block] when a record was
    parsed and to [none] otherwise; they issue the same requests, create the
    same tokens and write the same colours, and once an identifier is
    present they print the same console output. *)
Theorem implementations_agree (h : Host) (w : World) :
  mp_card (document w) <> None ->
  document (snd (MemberComponent.initMemberComponent h w))
    = with_card
        (set_card_display
           match parsed_member h with Some _ => "block" | None => "none" end)
        (document (snd (Sibling.initMemberComponent h w))) /\
  fetched (snd (MemberComponent.initMemberComponent h w))
    = fetched (snd (Sibling.initMemberComponent h w)) /\
  controllers (snd (MemberComponent.initMemberComponent h w))
    = controllers (snd (Sibling.initMemberComponent h w)) /\
  setProperty_calls (snd (MemberComponent.initMemberComponent h w))
    = setProperty_calls (snd (Sibling.initMemberComponent h w)) /\
  (truthy (memberId h) = true ->
   console (snd (MemberComponent.initMemberComponent h w))
     = console (snd (Sibling.initMemberComponent h w))).
Proof.
  intros Hpresent.
  destruct (load_view h w)
    as [Hid Hm | entry Hid Hcard Hd | c entry Hid Hcard Hm Hd | c m Hid Hcard Hm].
  - rewrite Hm. repeat split. congruence.
  - contradiction.
  - rewrite Hm. repeat split.
  - rewrite Hm. unfold coloured.
    destruct (opt_chain (latestParty m) backgroundColour) as [[|a s]|];
      cbn; unfold with_card; cbn; rewrite Hcard; repeat split.
Qed.

Lemma implementations_agree_witness :
  document (snd (MemberComponent.initMemberComponent (answering jane) page))
    = with_card
        (set_card_display
           match parsed_member (answering jane) with Some _ => "block" | None => "none" end)
        (document (snd (Sibling.initMemberComponent (answering jane) page))) /\
  fetched (snd (MemberComponent.initMemberComponent (answering jane) page))
    = fetched (snd (Sibling.initMemberComponent (answering jane) page)) /\
  controllers (snd (MemberComponent.initMemberComponent (answering jane) page))
    = controllers (snd (Sibling.initMemberComponent (answering jane) page)) /\
  setProperty_calls (snd (MemberComponent.initMemberComponent (answering jane) page))
    = setProperty_calls (snd (Sibling.initMemberComponent (answering jane) page)) /\
  (truthy (memberId (answering jane)) = true ->
   console (snd (MemberComponent.initMemberComponent (answering jane) page))
     = console (snd (Sibling.initMemberComponent (answering jane) page))).
Proof.
  apply (implementations_agree (answering jane) page).
  discriminate.
Defined.

(** ** Visibility of the card *)

(** X3.  On a page that has the card, the card-visibility implementation
    ends with the card's display [block] exactly when a record was parsed and
    [none] otherwise, and the sibling implementation never changes the
    card's display. *)
Theorem card_shown_iff_parsed (h : Host) (w : World) (c : Card) :
  mp_card (document w) = Some c ->
  card_visibility (snd (MemberComponent.initMemberComponent h w))
    = Some match parsed_member h with Some _ => "block" | None => "none" end /\
  card_visibility (snd (Sibling.initMemberComponent h w)) = Some (card_display c).
Proof.
  intros Hc. unfold card_visibility.
  destruct (load_view h w)
    as [Hid Hm | entry Hid Hcard Hd | c' entry Hid Hcard Hm Hd | c' m Hid Hcard Hm].
  - rewrite Hm. cbn. rewrite Hc. now split.
  - congruence.
  - rewrite Hm. cbn. rewrite Hc. now split.
  - rewrite Hm, !rendered_card, Hc. now split.
Qed.

Lemma card_shown_iff_parsed_witness :
  card_visibility (snd (MemberComponent.initMemberComponent answering_404 page))
    = Some match parsed_member answering_404 with Some _ => "block" | None => "none" end /\
  card_visibility (snd (Sibling.initMemberComponent answering_404 page))
    = Some (card_display template_card).
Proof.
  apply (card_shown_iff_parsed answering_404 page template_card).
  reflexivity.
Defined.

(** ** The children of the card *)

Lemma get_child_shown (r : ChildRef) (c : Card) :
  get_child r (set_card_display "block" c) = get_child r c.
Proof. now destruct r. Qed.

(** The children after a load that parsed record [m]. *)
Lemma child_after_parsed (h : Host) (w : World) (m : Member) (r : ChildRef) :
  parsed_member h = Some m ->
  child r (snd (Sibling.initMemberComponent h w))
    = match mp_card (document w) with
      | Some c => get_child r (populated h m c)
      | None => None
      end /\
  child r (snd (MemberComponent.initMemberComponent h w))
    = match mp_card (document w) with
      | Some c => get_child r (populated h m c)
      | None => None
      end.
Proof.
  intros Hparsed. unfold child.
  destruct (load_view h w)
    as [Hid Hm | entry Hid Hcard Hd | c entry Hid Hcard Hm Hd | c m' Hid Hcard Hm].
  - congruence.
  - cbn. now rewrite Hcard.
  - congruence.
  - assert (m' = m) as -> by congruence.
    rewrite !rendered_card, Hcard. cbn [option_map].
    now rewrite get_child_shown.
Qed.

(** The children after a load that parsed no record. *)
Lemma child_after_failure (h : Host) (w : World) (r : ChildRef) :
  parsed_member h = None ->
  child r (snd (Sibling.initMemberComponent h w)) = child r w /\
  child r (snd (MemberComponent.initMemberComponent h w)) = child r w.
Proof.
  intros Hnone.
  destruct (load_view h w)
    as [Hid Hm | entry Hid Hcard Hd | c entry Hid Hcard Hm Hd | c m' Hid Hcard Hm].
  - split; [reflexivity|]. apply (child_hidden r w).
  - split; [reflexivity|]. apply (child_hidden r w).
  - split; [reflexivity|]. apply (child_hidden r (requested h w)).
  - congruence.
Qed.

(** X1.  After a load that parsed a record, each of the image, party, name
    and constituency elements that exists holds the record's value or its
    fallback: the image source is [thumbnailUrl] or the empty string, the
    party text [latestParty.name] or "N/A", the name text [nameDisplayAs] or
    "N/A", the constituency text [latestHouseMembership.membershipFrom] or
    "N/A"; an element that does not exist is skipped. *)
Theorem content_written (h : Host) (w : World) (m : Member) :
  parsed_member h = Some m ->
  (child ImageRef (snd (Sibling.initMemberComponent h w))
     = option_map (set_src (nullish_coalesce (thumbnailUrl m) "")) (child ImageRef w) /\
   child PartyRef (snd (Sibling.initMemberComponent h w))
     = option_map
         (set_textContent (nullish_coalesce (opt_chain (latestParty m) name) "N/A"))
         (child PartyRef w) /\
   child NameRef (snd (Sibling.initMemberComponent h w))
     = option_map (set_textContent (nullish_coalesce (nameDisplayAs m) "N/A"))
         (child NameRef w) /\
   child ConstituencyRef (snd (Sibling.initMemberComponent h w))
     = option_map
         (set_textContent
            (nullish_coalesce (opt_chain (latestHouseMembership m) membershipFrom) "N/A"))
         (child ConstituencyRef w)) /\
  (child ImageRef (snd (MemberComponent.initMemberComponent h w))
     = option_map (set_src (nullish_coalesce (thumbnailUrl m) "")) (child ImageRef w) /\
   child PartyRef (snd (MemberComponent.initMemberComponent h w))
     = option_map
         (set_textContent (nullish_coalesce (opt_chain (latestParty m) name) "N/A"))
         (child PartyRef w) /\
   child NameRef (snd (MemberComponent.initMemberComponent h w))
     = option_map (set_textContent (nullish_coalesce (nameDisplayAs m) "N/A"))
         (child NameRef w) /\
   child ConstituencyRef (snd (MemberComponent.initMemberComponent h w))
     = option_map
         (set_textContent
            (nullish_coalesce (opt_chain (latestHouseMembership m) membershipFrom) "N/A"))
         (child ConstituencyRef w)).
Proof.
  intros Hm.
  destruct (child_after_parsed h w m ImageRef Hm) as [-> ->].
  destruct (child_after_parsed h w m PartyRef Hm) as [-> ->].
  destruct (child_after_parsed h w m NameRef Hm) as [-> ->].
  destruct (child_after_parsed h w m ConstituencyRef Hm) as [-> ->].
  unfold child. destruct (mp_card (document w)) as [c|]; repeat split.
Qed.

Lemma content_written_witness :
  (child ImageRef (snd (Sibling.initMemberComponent (answering bare) page))
     = option_map (set_src (nullish_coalesce (thumbnailUrl bare) "")) (child ImageRef page) /\
   child PartyRef (snd (Sibling.initMemberComponent (answering bare) page))
     = option_map
         (set_textContent (nullish_coalesce (opt_chain (latestParty bare) name) "N/A"))
         (child PartyRef page) /\
   child NameRef (snd (Sibling.initMemberComponent (answering bare) page))
     = option_map (set_textContent (nullish_coalesce (nameDisplayAs bare) "N/A"))
         (child NameRef page) /\
   child ConstituencyRef (snd (Sibling.initMemberComponent (answering bare) page))
     = option_map
         (set_textContent
            (nullish_coalesce (opt_chain (latestHouseMembership bare) membershipFrom) "N/A"))
         (child ConstituencyRef page)) /\
  (child ImageRef (snd (MemberComponent.initMemberComponent (answering bare) page))
     = option_map (set_src (nullish_coalesce (thumbnailUrl bare) "")) (child ImageRef page) /\
   child PartyRef (snd (MemberComponent.initMemberComponent (answering bare) page))
     = option_map
         (set_textContent (nullish_coalesce (opt_chain (latestParty bare) name) "N/A"))
         (child PartyRef page) /\
   child NameRef (snd (MemberComponent.initMemberComponent (answering bare) page))
     = option_map (set_textContent (nullish_coalesce (nameDisplayAs bare) "N/A"))
         (child NameRef page) /\
   child ConstituencyRef (snd (MemberComponent.initMemberComponent (answering bare) page))
     = option_map
         (set_textContent
            (nullish_coalesce (opt_chain (latestHouseMembership bare) membershipFrom) "N/A"))
         (child ConstituencyRef page)).
Proof.
  apply (content_written (answering bare) page bare).
  reflexivity.
Defined.

Example bare_record_rendered :
  mp_card (document (snd (MemberComponent.initMemberComponent (answering bare) page)))
    = Some (mkCard "block"
              (Some (mkElement "" "" ""))
              (Some (mkElement "" "N/A" ""))
              (Some (mkElement "" "N/A" ""))
              (Some (mkElement "" "N/A" ""))
              (Some (mkElement "" "" "none"))).
Proof. reflexivity. Qed.

(** X7.  No load creates or removes the card or one of its children, and a
    load only writes the properties it is meant to: the source of the image,
    the text of the four labels, the display of the status label.  Every
    other property of a child keeps its value. *)
Theorem children_preserved (h : Host) (w : World) (r : ChildRef) :
  ((mp_card (document (snd (Sibling.initMemberComponent h w))) = None <->
    mp_card (document w) = None) /\
   (mp_card (document (snd (MemberComponent.initMemberComponent h w))) = None <->
    mp_card (document w) = None)) /\
  (child r w = None ->
   child r (snd (Sibling.initMemberComponent h w)) = None /\
   child r (snd (MemberComponent.initMemberComponent h w)) = None) /\
  (forall el, child r w = Some el ->
   exists s c,
     child r (snd (Sibling.initMemberComponent h w)) = Some s /\
     child r (snd (MemberComponent.initMemberComponent h w)) = Some c /\
     s = c /\
     (r <> ImageRef -> src s = src el) /\
     (r = ImageRef -> textContent s = textContent el) /\
     (r <> StatusRef -> style_display s = style_display el)).
Proof.
  split; [|split].
  - destruct (load_view h w)
      as [Hid Hm | entry Hid Hcard Hd | c entry Hid Hcard Hm Hd | c m Hid Hcard Hm].
    + cbn. destruct (mp_card (document w)); cbn; split; split; intros; congruence.
    + cbn. rewrite Hcard. now repeat split.
    + cbn. rewrite Hcard. cbn. split; split; intros; congruence.
    + rewrite !rendered_card, Hcard. cbn. split; split; intros; congruence.
  - intros Hnone. destruct (parsed_member h) as [m|] eqn:Hm.
    + destruct (child_after_parsed h w m r Hm) as [-> ->].
      unfold child in Hnone. destruct (mp_card (document w)) as [c|]; [|now split].
      destruct r; cbn in *; rewrite Hnone; now split.
    + destruct (child_after_failure h w r Hm) as [-> ->]. now split.
  - intros el Hel. destruct (parsed_member h) as [m|] eqn:Hm.
    + destruct (child_after_parsed h w m r Hm) as [-> ->].
      unfold child in Hel. destruct (mp_card (document w)) as [c|]; [|discriminate].
      destruct r; cbn in *; rewrite Hel; cbn;
        eexists; eexists; (split; [reflexivity|]); (split; [reflexivity|]);
        (split; [reflexivity|]); repeat split; cbn; intros; congruence.
    + destruct (child_after_failure h w r Hm) as [-> ->].
      exists el, el. repeat split; assumption.
Qed.

Lemma children_preserved_witness :
  ((mp_card (document (snd (Sibling.initMemberComponent (answering jane) page))) = None <->
    mp_card (document page) = None) /\
   (mp_card (document (snd (MemberComponent.initMemberComponent (answering jane) page)))
      = None <->
    mp_card (document page) = None)) /\
  (child StatusRef page = None ->
   child StatusRef (snd (Sibling.initMemberComponent (answering jane) page)) = None /\
   child StatusRef (snd (MemberComponent.initMemberComponent (answering jane) page)) = None) /\
  (forall el, child StatusRef page = Some el ->
   exists s c,
     child StatusRef (snd (Sibling.initMemberComponent (answering jane) page)) = Some s /\
     child StatusRef (snd (MemberComponent.initMemberComponent (answering jane) page))
       = Some c /\
     s = c /\
     (StatusRef <> ImageRef -> src s = src el) /\
     (StatusRef = ImageRef -> textContent s = textContent el) /\
     (StatusRef <> StatusRef -> style_display s = style_display el)).
Proof.
  exact (children_preserved (answering jane) page StatusRef).
Defined.

(** ** A record without a membership *)

(** X8.  For every parsed record in which [latestHouseMembership] is absent,
    the constituency label's text is set to "N/A" and the member counts as
    serving: the status label is hidden and its text cleared. *)
Theorem missing_membership (h : Host) (w : World) (m : Member) :
  parsed_member h = Some m ->
  latestHouseMembership m = None ->
  (forall el, child ConstituencyRef w = Some el ->
     child ConstituencyRef (snd (Sibling.initMemberComponent h w))
       = Some (set_textContent "N/A" el) /\
     child ConstituencyRef (snd (MemberComponent.initMemberComponent h w))
       = Some (set_textContent "N/A" el)) /\
  (forall el, child StatusRef w = Some el ->
     child StatusRef (snd (Sibling.initMemberComponent h w)) = Some (status_hidden el) /\
     child StatusRef (snd (MemberComponent.initMemberComponent h w))
       = Some (status_hidden el)).
Proof.
  intros Hm Hnone. split.
  - intros el Hel.
    destruct (child_after_parsed h w m ConstituencyRef Hm) as [-> ->].
    destruct (child_card _ _ _ Hel) as (c & -> & Hget).
    cbn in *. rewrite Hget, Hnone. now split.
  - intros el Hel.
    destruct (status_after_load h w m el Hm Hel) as [-> ->].
    unfold membershipEnd. rewrite Hnone. now split.
Qed.

Lemma missing_membership_witness :
  (forall el, child ConstituencyRef page = Some el ->
     child ConstituencyRef (snd (Sibling.initMemberComponent (answering bare) page))
       = Some (set_textContent "N/A" el) /\
     child ConstituencyRef (snd (MemberComponent.initMemberComponent (answering bare) page))
       = Some (set_textContent "N/A" el)) /\
  (forall el, child StatusRef page = Some el ->
     child StatusRef (snd (Sibling.initMemberComponent (answering bare) page))
       = Some (status_hidden el) /\
     child StatusRef (snd (MemberComponent.initMemberComponent (answering bare) page))
       = Some (status_hidden el)).
Proof.
  apply (missing_membership (answering bare) page bare).
  - reflexivity.
  - reflexivity.
Defined.

(** ** Writes to the colour variable *)

(** X12.  A load calls [setProperty] at most once.  When it does, a record
    was parsed, the value it passes starts with [#], and the variable
    becomes what the style declaration makes of that value; when it does
    not, the variable keeps its value. *)
Theorem colour_written_at_most_once (h : Host) (w : World) :
  ((setProperty_calls (snd (Sibling.initMemberComponent h w)) = setProperty_calls w /\
    party_color (document (snd (Sibling.initMemberComponent h w)))
      = party_color (document w)) \/
   (exists v,
      setProperty_calls (snd (Sibling.initMemberComponent h w))
        = (setProperty_calls w ++ [v])%list /\
      party_color (document (snd (Sibling.initMemberComponent h w)))
        = declare h v (party_color (document w)) /\
      startsWith v "#" = true /\ parsed_member h <> None)) /\
  ((setProperty_calls (snd (MemberComponent.initMemberComponent h w))
      = setProperty_calls w /\
    party_color (document (snd (MemberComponent.initMemberComponent h w)))
      = party_color (document w)) \/
   (exists v,
      setProperty_calls (snd (MemberComponent.initMemberComponent h w))
        = (setProperty_calls w ++ [v])%list /\
      party_color (document (snd (MemberComponent.initMemberComponent h w)))
        = declare h v (party_color (document w)) /\
      startsWith v "#" = true /\ parsed_member h <> None)).
Proof.
  destruct (load_view h w)
    as [Hid Hm | entry Hid Hcard Hd | c entry Hid Hcard Hm Hd | c m Hid Hcard Hm].
  - split; left; now split.
  - split; left; now split.
  - split; left; now split.
  - destruct (partyColor m) as [[|a s]|] eqn:Hcolour.
    + split; left; apply and_comm, rendered_colour_kept; now rewrite Hcolour.
    + split; right; exists (formattedColor (String a s));
        (destruct (rendered_colour_set (populated h m) h m w (String a s) Hcolour)
           as [Hv Hcalls]; [discriminate|]);
        (destruct (rendered_colour_set
                     (fun c => set_card_display "block" (populated h m c)) h m w
                     (String a s) Hcolour) as [Hv' Hcalls']; [discriminate|]);
        repeat split; auto using formattedColor_startsWith; congruence.
    + split; left; apply and_comm, rendered_colour_kept; now rewrite Hcolour.
Qed.

Lemma colour_written_at_most_once_witness :
  ((setProperty_calls (snd (Sibling.initMemberComponent (answering red_spaced) page))
      = setProperty_calls page /\
    party_color (document (snd (Sibling.initMemberComponent (answering red_spaced) page)))
      = party_color (document page)) \/
   (exists v,
      setProperty_calls (snd (Sibling.initMemberComponent (answering red_spaced) page))
        = (setProperty_calls page ++ [v])%list /\
      party_color (document (snd (Sibling.initMemberComponent (answering red_spaced) page)))
        = declare (answering red_spaced) v (party_color (document page)) /\
      startsWith v "#" = true /\ parsed_member (answering red_spaced) <> None)) /\
  ((setProperty_calls (snd (MemberComponent.initMemberComponent (answering red_spaced) page))
      = setProperty_calls page /\
    party_color
      (document (snd (MemberComponent.initMemberComponent (answering red_spaced) page)))
      = party_color (document page)) \/
   (exists v,
      setProperty_calls (snd (MemberComponent.initMemberComponent (answering red_spaced) page))
        = (setProperty_calls page ++ [v])%list /\
      party_color
        (document (snd (MemberComponent.initMemberComponent (answering red_spaced) page)))
        = declare (answering red_spaced) v (party_color (document page)) /\
      startsWith v "#" = true /\ parsed_member (answering red_spaced) <> None)).
Proof.
  exact (colour_written_at_most_once (answering red_spaced) page).
Defined.

(** ** Console output *)

Lemma snoc_neq {A} (l : list A) (x : A) : (l ++ [x])%list <> l.
Proof.
  intros H. apply (f_equal (@length A)) in H. rewrite length_app in H. simpl in H. lia.
Qed.

(** X9.  A load prints nothing exactly when it populates the card: the
    console is left as it was iff a record was parsed and the card exists.
    In every other case exactly one entry, a warning or an error, is
    appended after the existing ones. *)
Theorem silent_iff_populated (h : Host) (w : World) :
  ((console (snd (Sibling.initMemberComponent h w)) = console w <->
    parsed_member h <> None /\ mp_card (document w) <> None) /\
   (console (snd (MemberComponent.initMemberComponent h w)) = console w <->
    parsed_member h <> None /\ mp_card (document w) <> None)) /\
  (parsed_member h = None \/ mp_card (document w) = None ->
   (exists entry,
      console (snd (Sibling.initMemberComponent h w)) = (console w ++ [entry])%list /\
      diagnostic entry) /\
   (exists entry,
      console (snd (MemberComponent.initMemberComponent h w)) = (console w ++ [entry])%list /\
      diagnostic entry)).
Proof.
  destruct (load_view h w)
    as [Hid Hm | entry Hid Hcard Hd | c entry Hid Hcard Hm Hd | c m Hid Hcard Hm].
  - split.
    + split; (split; [intros Hsame; now apply snoc_neq in Hsame
                     | intros [Hsome _]; contradiction]).
    + intros _. split; eexists; (split; [reflexivity | exact I]).
  - split.
    + split; (split; [intros Hsame; now apply snoc_neq in Hsame
                     | intros [_ Hsome]; contradiction]).
    + intros _. split; eexists; (split; [reflexivity|]); [exact Hd | exact I].
  - split.
    + split; (split; [intros Hsame; now apply snoc_neq in Hsame
                     | intros [Hsome _]; contradiction]).
    + intros _. split; exists entry; (split; [reflexivity | exact Hd]).
  - rewrite !rendered_console. split.
    + split; (split; [intros _; split; congruence | reflexivity]).
    + intros [Hnone | Hnone]; congruence.
Qed.

Lemma silent_iff_populated_witness :
  ((console (snd (Sibling.initMemberComponent answering_404 page)) = console page <->
    parsed_member answering_404 <> None /\ mp_card (document page) <> None) /\
   (console (snd (MemberComponent.initMemberComponent answering_404 page)) = console page <->
    parsed_member answering_404 <> None /\ mp_card (document page) <> None)) /\
  (parsed_member answering_404 = None \/ mp_card (document page) = None ->
   (exists entry,
      console (snd (Sibling.initMemberComponent answering_404 page))
        = (console page ++ [entry])%list /\
      diagnostic entry) /\
   (exists entry,
      console (snd (MemberComponent.initMemberComponent answering_404 page))
        = (console page ++ [entry])%list /\
      diagnostic entry)).
Proof.
  exact (silent_iff_populated answering_404 page).
Defined.

(** ** The request *)

Lemma truthy_some (id : string) : id <> "" -> truthy (Some id) = true.
Proof. destruct id; [contradiction | reflexivity]. Qed.

(** The request log after a load, by the state of the guard. *)
Lemma fetched_after (h : Host) (w : World) :
  truthy (memberId h) = true ->
  fetched (snd (Sibling.initMemberComponent h w))
    = (fetched w ++ [apiUrl (memberId h)])%list /\
  (mp_card (document w) <> None ->
   fetched (snd (MemberComponent.initMemberComponent h w))
     = (fetched w ++ [apiUrl (memberId h)])%list) /\
  (mp_card (document w) = None ->
   fetched (snd (MemberComponent.initMemberComponent h w)) = fetched w).
Proof.
  intros Htruthy.
  destruct (load_view h w)
    as [Hid Hm | entry Hid Hcard Hd | c entry Hid Hcard Hm Hd | c m Hid Hcard Hm].
  - congruence.
  - repeat split. intros Hsome. contradiction.
  - repeat split. congruence.
  - rewrite !rendered_fetched. repeat split. congruence.
Qed.

(** X2.  With a non-empty identifier [id], a load sends exactly one request,
    to the members endpoint followed by [id] as it stands in the query
    string; the card-visibility implementation sends it only when the card
    exists and otherwise sends nothing. *)
Theorem one_request_to_member_url (h : Host) (w : World) (id : string) :
  memberId h = Some id ->
  id <> "" ->
  fetched (snd (Sibling.initMemberComponent h w))
    = (fetched w ++ [("https://members-api.parliament.uk/api/members/" ++ id)%string])%list /\
  (mp_card (document w) <> None ->
   fetched (snd (MemberComponent.initMemberComponent h w))
     = (fetched w ++ [("https://members-api.parliament.uk/api/members/" ++ id)%string])%list) /\
  (mp_card (document w) = None ->
   fetched (snd (MemberComponent.initMemberComponent h w)) = fetched w).
Proof.
  intros Hmid Hne.
  assert (Htruthy : truthy (memberId h) = true) by (rewrite Hmid; now apply truthy_some).
  destruct (fetched_after h w Htruthy) as (Hs & Hc & Hnone).
  rewrite Hmid in Hs, Hc. now repeat split.
Qed.

Lemma one_request_to_member_url_witness :
  fetched (snd (Sibling.initMemberComponent (answering jane) page))
    = (fetched page ++ [("https://members-api.parliament.uk/api/members/" ++ "172")%string])%list /\
  (mp_card (document page) <> None ->
   fetched (snd (MemberComponent.initMemberComponent (answering jane) page))
     = (fetched page ++ [("https://members-api.parliament.uk/api/members/" ++ "172")%string])%list) /\
  (mp_card (document page) = None ->
   fetched (snd (MemberComponent.initMemberComponent (answering jane) page)) = fetched page).
Proof.
  apply (one_request_to_member_url (answering jane) page "172").
  - reflexivity.
  - discriminate.
Defined.

(** ** Rejections *)

(** X5.  When the request or the reading of the body is rejected with an
    error, the load prints one entry for it: the warning
    "Fetch request was aborted" when the error is a [DOMException] named
    [AbortError], and otherwise an error entry that names the identifier and
    carries the error. *)
Theorem rejections_reported (h : Host) (w : World) (id : string) (e : Thrown) :
  memberId h = Some id ->
  id <> "" ->
  (network h (apiUrl (Some id)) = FetchRejects e \/
   exists r, network h (apiUrl (Some id)) = FetchResolves r /\
             ok r = true /\ body r = JsonRejects e) ->
  console (snd (Sibling.initMemberComponent h w))
    = (console w
         ++ [if instanceof_DOMException e && (error_name e =? "AbortError")
             then Warn "Fetch request was aborted"
             else Error ("Error fetching data for member ID " ++ id ++ ":")%string [e]])%list /\
  (mp_card (document w) <> None ->
   console (snd (MemberComponent.initMemberComponent h w))
     = (console w
          ++ [if instanceof_DOMException e && (error_name e =? "AbortError")
              then Warn "Fetch request was aborted"
              else Error ("Error fetching data for member ID " ++ id ++ ":")%string [e]])%list).
Proof.
  intros Hmid Hne Hrejected.
  assert (Hid : truthy (memberId h) = true) by (rewrite Hmid; now apply truthy_some).
  assert (Hentry : catch_entry h e
                   = if instanceof_DOMException e && (error_name e =? "AbortError")
                     then Warn "Fetch request was aborted"
                     else Error ("Error fetching data for member ID " ++ id ++ ":") [e])
    by (unfold catch_entry, is_abort_error; now rewrite Hmid).
  rewrite <- Hmid in Hrejected. rewrite <- Hentry.
  destruct Hrejected as [Hnet | (r & Hnet & Hok & Hbody)].
  - rewrite (sibling_fetch_rejects h w Hid e Hnet). split; [reflexivity|].
    intros Hcard. destruct (mp_card (document w)) as [c|] eqn:Hc; [|contradiction].
    now rewrite (component_fetch_rejects h w c Hid Hc e Hnet).
  - rewrite (sibling_json_rejects h w Hid r e Hnet Hok Hbody). split; [reflexivity|].
    intros Hcard. destruct (mp_card (document w)) as [c|] eqn:Hc; [|contradiction].
    now rewrite (component_json_rejects h w c Hid Hc r e Hnet Hok Hbody).
Qed.

Lemma rejections_reported_witness :
  console (snd (Sibling.initMemberComponent unreachable page))
    = (console page
         ++ [if instanceof_DOMException network_error
                && (error_name network_error =? "AbortError")
             then Warn "Fetch request was aborted"
             else Error ("Error fetching data for member ID " ++ "172" ++ ":")%string
                    [network_error]])%list /\
  (mp_card (document page) <> None ->
   console (snd (MemberComponent.initMemberComponent unreachable page))
     = (console page
          ++ [if instanceof_DOMException network_error
                 && (error_name network_error =? "AbortError")
              then Warn "Fetch request was aborted"
              else Error ("Error fetching data for member ID " ++ "172" ++ ":")%string
                     [network_error]])%list).
Proof.
  apply (rejections_reported unreachable page "172" network_error).
  - reflexivity.
  - discriminate.
  - left. reflexivity.
Defined.

(** ** Loading twice *)

(** The document after a load, as a function of the parsed record and of the
    document before. *)
Lemma document_after (h : Host) (w : World) :
  document (snd (Sibling.initMemberComponent h w))
    = match parsed_member h, mp_card (document w) with
      | Some m, Some c =>
          mkDocument (Some (populated h m c))
            match partyColor m with
            | Some (String a s) =>
                declare h (formattedColor (String a s)) (party_color (document w))
            | _ => party_color (document w)
            end
      | _, _ => document w
      end /\
  document (snd (MemberComponent.initMemberComponent h w))
    = match parsed_member h, mp_card (document w) with
      | Some m, Some c =>
          mkDocument (Some (set_card_display "block" (populated h m c)))
            match partyColor m with
            | Some (String a s) =>
                declare h (formattedColor (String a s)) (party_color (document w))
            | _ => party_color (document w)
            end
      | _, _ => hidden (document w)
      end.
Proof.
  destruct (load_view h w)
    as [Hid Hm | entry Hid Hcard Hd | c entry Hid Hcard Hm Hd | c m Hid Hcard Hm].
  - rewrite Hm. now split.
  - rewrite Hcard. cbn. rewrite (hidden_without_card _ Hcard).
    destruct (parsed_member h); now split.
  - rewrite Hm. now split.
  - rewrite Hm, Hcard. unfold coloured, partyColor.
    destruct (opt_chain (latestParty m) backgroundColour) as [[|a s]|];
      cbn; unfold with_card; cbn; rewrite Hcard; now split.
Qed.

(** Handing the same value to [setProperty] again changes nothing. *)
Lemma declare_twice (h : Host) (v : string) (old : option string) :
  declare h v (declare h v old) = declare h v old.
Proof. unfold declare. now destruct (style_setProperty h v). Qed.

Lemma hidden_twice (d : Document) : hidden (hidden d) = hidden d.
Proof. now destruct d as [[c|] colour]. Qed.

Lemma populated_twice (h : Host) (m : Member) (c : Card) :
  populated h m (populated h m c) = populated h m c /\
  populated h m (set_card_display "block" (populated h m c))
    = set_card_display "block" (populated h m c).
Proof.
  destruct c as [disp [i|] [p|] [n|] [co|] [st|]]; split; reflexivity.
Qed.

(** X6.  Loading a second time on the same host leaves the document exactly
    as the first load left it; nothing is cached, so with an identifier
    present the sibling implementation sends the same request again. *)
Theorem reload_idempotent (h : Host) (w : World) :
  document
    (snd (Sibling.initMemberComponent h (snd (Sibling.initMemberComponent h w))))
    = document (snd (Sibling.initMemberComponent h w)) /\
  document
    (snd (MemberComponent.initMemberComponent h
            (snd (MemberComponent.initMemberComponent h w))))
    = document (snd (MemberComponent.initMemberComponent h w)) /\
  (truthy (memberId h) = true ->
   fetched
     (snd (Sibling.initMemberComponent h (snd (Sibling.initMemberComponent h w))))
     = (fetched w ++ [apiUrl (memberId h); apiUrl (memberId h)])%list).
Proof.
  split; [|split].
  - destruct (document_after h (snd (Sibling.initMemberComponent h w))) as [-> _].
    destruct (document_after h w) as [-> _].
    destruct (parsed_member h) as [m|]; [|reflexivity].
    destruct (mp_card (document w)) as [c|] eqn:Hcard; [|now rewrite Hcard].
    cbn. destruct (populated_twice h m c) as [-> _].
    destruct (partyColor m) as [[|a s]|]; now rewrite ?declare_twice.
  - destruct (document_after h (snd (MemberComponent.initMemberComponent h w))) as [_ ->].
    destruct (document_after h w) as [_ ->].
    destruct (parsed_member h) as [m|].
    + destruct (mp_card (document w)) as [c|] eqn:Hcard.
      * cbn. destruct (populated_twice h m c) as [_ ->].
        destruct (partyColor m) as [[|a s]|]; now rewrite ?declare_twice.
      * rewrite !(hidden_without_card (document w) Hcard). now rewrite Hcard.
    + apply hidden_twice.
  - intros Hid.
    destruct (fetched_after h (snd (Sibling.initMemberComponent h w)) Hid) as [-> _].
    destruct (fetched_after h w Hid) as [-> _].
    now rewrite <- app_assoc.
Qed.

Lemma reload_idempotent_witness :
  document
    (snd (Sibling.initMemberComponent (answering former)
            (snd (Sibling.initMemberComponent (answering former) page))))
    = document (snd (Sibling.initMemberComponent (answering former) page)) /\
  document
    (snd (MemberComponent.initMemberComponent (answering former)
            (snd (MemberComponent.initMemberComponent (answering former) page))))
    = document (snd (MemberComponent.initMemberComponent (answering former) page)) /\
  (truthy (memberId (answering former)) = true ->
   fetched
     (snd (Sibling.initMemberComponent (answering former)
             (snd (Sibling.initMemberComponent (answering former) page))))
     = (fetched page
          ++ [apiUrl (memberId (answering former)); apiUrl (memberId (answering former))])%list).
Proof.
  exact (reload_idempotent (answering former) page).
Defined.

(** ** Time *)

Lemma inactive_later (h : Host) (t : Z) (e : option string) :
  (now h <= t)%Z ->
  isMembershipActive h e = false ->
  isMembershipActive (at_time t h) e = false.
Proof.
  unfold isMembershipActive. intros Hle.
  destruct e as [[|a s]|]; cbn; try discriminate.
  destruct (Date_parse h (String a s)) as [end_|]; cbn; [|reflexivity].
  rewrite !Z.ltb_ge. lia.
Qed.

Lemma shown_means_inactive (active : bool) (el el' : Element) :
  Some (if active then status_hidden el else status_shown el) = Some (status_shown el') ->
  active = false.
Proof. destruct active; [discriminate | reflexivity]. Qed.

(** X11.  The passing of time can only end a membership: if on a host the
    status label of a parsed record is shown with "No longer serving", then
    on the same host at any later time it is shown as well. *)
Theorem no_longer_serving_is_permanent (h : Host) (w : World) (t : Z) (m : Member)
    (el : Element) :
  (now h <= t)%Z ->
  parsed_member h = Some m ->
  child StatusRef w = Some el ->
  (child StatusRef (snd (Sibling.initMemberComponent h w)) = Some (status_shown el) ->
   child StatusRef (snd (Sibling.initMemberComponent (at_time t h) w))
     = Some (status_shown el)) /\
  (child StatusRef (snd (MemberComponent.initMemberComponent h w))
     = Some (status_shown el) ->
   child StatusRef (snd (MemberComponent.initMemberComponent (at_time t h) w))
     = Some (status_shown el)).
Proof.
  intros Hle Hm Hel.
  destruct (status_after_load h w m el Hm Hel) as [Hs Hc].
  destruct (status_after_load (at_time t h) w m el Hm Hel) as [Hs' Hc'].
  split.
  - rewrite Hs. intros Hflag%shown_means_inactive.
    rewrite Hs'. now rewrite (inactive_later h t _ Hle Hflag).
  - rewrite Hc. intros Hflag%shown_means_inactive.
    rewrite Hc'. now rewrite (inactive_later h t _ Hle Hflag).
Qed.

Lemma no_longer_serving_is_permanent_witness :
  (child StatusRef (snd (Sibling.initMemberComponent (answering former) page))
     = Some (status_shown blank) ->
   child StatusRef
     (snd (Sibling.initMemberComponent (at_time 1800000000000 (answering former)) page))
     = Some (status_shown blank)) /\
  (child StatusRef (snd (MemberComponent.initMemberComponent (answering former) page))
     = Some (status_shown blank) ->
   child StatusRef
     (snd (MemberComponent.initMemberComponent
             (at_time 1800000000000 (answering former)) page))
     = Some (status_shown blank)).
Proof.
  apply (no_longer_serving_is_permanent (answering former) page 1800000000000 former blank).
  - discriminate.
  - reflexivity.
  - reflexivity.
Defined.

(** ** The bootstrap *)

(** What is already on the console does not influence a load: the same
    entries are appended and the rest of the world ends the same. *)
Lemma component_console_frame (h : Host) (w : World) (out : list LogEntry) :
  exists rest,
    console (snd (MemberComponent.initMemberComponent h w)) = (console w ++ rest)%list /\
    snd (MemberComponent.initMemberComponent h
           (mkWorld (document w) out (fetched w) (controllers w) (setProperty_calls w)))
      = mkWorld (document (snd (MemberComponent.initMemberComponent h w)))
          (out ++ rest)
          (fetched (snd (MemberComponent.initMemberComponent h w)))
          (controllers (snd (MemberComponent.initMemberComponent h w)))
          (setProperty_calls (snd (MemberComponent.initMemberComponent h w))).
Proof.
  set (w1 := mkWorld (document w) out (fetched w) (controllers w) (setProperty_calls w)).
  destruct (mp_card (document w)) as [c|] eqn:Hcard.
  2:{ rewrite (component_no_id_or_card h w) by (now right).
      rewrite (component_no_id_or_card h w1) by (now right).
      now exists [Warn "No member ID provided or card element not found"]. }
  destruct (path_total h) as [Hid|e Hid Hnet|r Hid Hnet Hok|r e Hid Hnet Hok Hbody
                             |r Hid Hnet Hok Hbody|r d Hid Hnet Hok Hbody Hval
                             |r d m Hid Hnet Hok Hbody Hval].
  - rewrite (component_no_id_or_card h w) by (now left).
    rewrite (component_no_id_or_card h w1) by (now left).
    now exists [Warn "No member ID provided or card element not found"].
  - rewrite (component_fetch_rejects h w c Hid Hcard e Hnet).
    rewrite (component_fetch_rejects h w1 c Hid Hcard e Hnet).
    now exists [catch_entry h e].
  - rewrite (component_not_ok h w c Hid Hcard r Hnet Hok).
    rewrite (component_not_ok h w1 c Hid Hcard r Hnet Hok).
    now exists [status_failure r].
  - rewrite (component_json_rejects h w c Hid Hcard r e Hnet Hok Hbody).
    rewrite (component_json_rejects h w1 c Hid Hcard r e Hnet Hok Hbody).
    now exists [catch_entry h e].
  - rewrite (component_null_body h w c Hid Hcard r Hnet Hok Hbody).
    rewrite (component_null_body h w1 c Hid Hcard r Hnet Hok Hbody).
    now exists [catch_entry h null_body].
  - rewrite (component_no_value h w c Hid Hcard r d Hnet Hok Hbody Hval).
    rewrite (component_no_value h w1 c Hid Hcard r d Hnet Hok Hbody Hval).
    now exists [catch_entry h undefined_member].
  - rewrite (component_renders h w c Hid Hcard r d m Hnet Hok Hbody Hval).
    rewrite (component_renders h w1 c Hid Hcard r d m Hnet Hok Hbody Hval).
    exists []. rewrite !app_nil_r. unfold coloured.
    destruct (opt_chain (latestParty m) backgroundColour) as [[|a s]|]; now split.
Qed.

(** X10.  The bootstrap constructor prints its verification message first
    and then runs the component once: the console holds what was there, then
    "Hello world!", then whatever the component prints, and the document, the
    requests and the colour writes are those of the component alone. *)
Theorem bootstrap_logs_first (h : Host) (w : World) :
  document (snd (Main h w))
    = document (snd (MemberComponent.initMemberComponent h w)) /\
  fetched (snd (Main h w)) = fetched (snd (MemberComponent.initMemberComponent h w)) /\
  setProperty_calls (snd (Main h w))
    = setProperty_calls (snd (MemberComponent.initMemberComponent h w)) /\
  exists rest,
    console (snd (MemberComponent.initMemberComponent h w)) = (console w ++ rest)%list /\
    console (snd (Main h w)) = (console w ++ Log verificationLog :: rest)%list.
Proof.
  destruct (component_console_frame h w (console w ++ [Log verificationLog]))
    as (rest & Hrest & Hframe).
  assert (Hmain : snd (Main h w)
                  = snd (MemberComponent.initMemberComponent h
                           (mkWorld (document w) (console w ++ [Log verificationLog])
                              (fetched w) (controllers w) (setProperty_calls w)))).
  { unfold Main, bind, console_log, modify, call_async, with_console.
    match goal with |- snd (let (_, _) := ?run in _) = _ => now destruct run end. }
  rewrite Hmain, Hframe. cbn. repeat split.
  exists rest. split; [exact Hrest|]. now rewrite <- app_assoc.
Qed.

Lemma bootstrap_logs_first_witness :
  document (snd (Main unreachable page))
    = document (snd (MemberComponent.initMemberComponent unreachable page)) /\
  fetched (snd (Main unreachable page))
    = fetched (snd (MemberComponent.initMemberComponent unreachable page)) /\
  setProperty_calls (snd (Main unreachable page))
    = setProperty_calls (snd (MemberComponent.initMemberComponent unreachable page)) /\
  exists rest,
    console (snd (MemberComponent.initMemberComponent unreachable page))
      = (console page ++ rest)%list /\
    console (snd (Main unreachable page)) = (console page ++ Log verificationLog :: rest)%list.
Proof.
  exact (bootstrap_logs_first unreachable page).
Defined.

Example bootstrap_console :
  console (snd (Main unreachable page))
    = [Log "Hello world!"; Error "Error fetching data for member ID 172:" [network_error]].
Proof. reflexivity. Qed.

(** ** A success status with a body of the wrong shape *)

(** X13.  When the response has a success status but its body is [null] or
    an envelope without a record, and the card exists, the property access
    throws inside the [try] block: the load prints one error entry that
    names the identifier and carries a [TypeError], writes no child and no
    colour, and the card-visibility implementation hides the card. *)
Theorem malformed_envelope_reported (h : Host) (w : World) (id : string) (r : Response) :
  memberId h = Some id ->
  id <> "" ->
  network h (apiUrl (Some id)) = FetchResolves r ->
  ok r = true ->
  (body r = JsonResolves None \/
   exists d, body r = JsonResolves (Some d) /\ value d = None) ->
  mp_card (document w) <> None ->
  exists e,
    error_name e = "TypeError" /\
    instanceof_DOMException e = false /\
    (console (snd (Sibling.initMemberComponent h w))
       = (console w ++ [Error ("Error fetching data for member ID " ++ id ++ ":") [e]])%list /\
     document (snd (Sibling.initMemberComponent h w)) = document w) /\
    (console (snd (MemberComponent.initMemberComponent h w))
       = (console w ++ [Error ("Error fetching data for member ID " ++ id ++ ":") [e]])%list /\
     document (snd (MemberComponent.initMemberComponent h w)) = hidden (document w)).
Proof.
  intros Hmid Hne Hnet Hok Hshape Hpresent.
  assert (Hid : truthy (memberId h) = true) by (rewrite Hmid; now apply truthy_some).
  rewrite <- Hmid in Hnet.
  destruct (mp_card (document w)) as [c|] eqn:Hcard; [|contradiction].
  destruct Hshape as [Hbody | (d & Hbody & Hval)].
  - exists null_body.
    rewrite (sibling_null_body h w Hid r Hnet Hok Hbody).
    rewrite (component_null_body h w c Hid Hcard r Hnet Hok Hbody).
    unfold catch_entry. rewrite Hmid. now repeat split.
  - exists undefined_member.
    rewrite (sibling_no_value h w Hid r d c Hnet Hok Hbody Hval Hcard).
    rewrite (component_no_value h w c Hid Hcard r d Hnet Hok Hbody Hval).
    unfold catch_entry. rewrite Hmid. now repeat split.
Qed.

Lemma malformed_envelope_reported_witness :
  exists e,
    error_name e = "TypeError" /\
    instanceof_DOMException e = false /\
    (console
       (snd (Sibling.initMemberComponent
               (host_of [("id", "172")]
                  (FetchResolves (mkResponse 200 (JsonResolves (Some (mkResponseData None))))))
               page))
       = (console page
            ++ [Error ("Error fetching data for member ID " ++ "172" ++ ":") [e]])%list /\
     document
       (snd (Sibling.initMemberComponent
               (host_of [("id", "172")]
                  (FetchResolves (mkResponse 200 (JsonResolves (Some (mkResponseData None))))))
               page))
       = document page) /\
    (console
       (snd (MemberComponent.initMemberComponent
               (host_of [("id", "172")]
                  (FetchResolves (mkResponse 200 (JsonResolves (Some (mkResponseData None))))))
               page))
       = (console page
            ++ [Error ("Error fetching data for member ID " ++ "172" ++ ":") [e]])%list /\
     document
       (snd (MemberComponent.initMemberComponent
               (host_of [("id", "172")]
                  (FetchResolves (mkResponse 200 (JsonResolves (Some (mkResponseData None))))))
               page))
       = hidden (document page)).
Proof.
  apply (malformed_envelope_reported
           (host_of [("id", "172")]
              (FetchResolves (mkResponse 200 (JsonResolves (Some (mkResponseData None))))))
           page "172"
           (mkResponse 200 (JsonResolves (Some (mkResponseData None))))).
  - reflexivity.
  - discriminate.
  - reflexivity.
  - reflexivity.
  - right. now exists (mkResponseData None).
  - discriminate.
Defined.
